(** * Public-key services of the /dev/crypto driver (ncr-pk.c)

    A shallow embedding of [ncr-pk.c]: key-pair generation, key
    serialisation and the RSA/DSA cipher and signature context, followed by
    the properties of these operations.

    The numeric library (libtomcrypt), the kernel allocator, the work queue
    and the algorithm registry are collaborators of this file.  Every call
    into them is an explicit node of the program, and a run of a program is
    taken against an [oracle] that fixes what the collaborators answer. *)

From Stdlib Require Import ZArith List Bool Lia.
From Stdlib.Strings Require Import Byte.
Import ListNotations.
Open Scope Z_scope.

Set Implicit Arguments.

(** ** Declarations taken from the headers

    [ncr-pk.c] includes [ncr.h], [ncr_int.h], [tomcrypt.h] and the kernel
    headers.  None of their constants is given a value here: the file is
    verified for every value of them, and a property that needs two of them to
    differ says so in its statement. *)

Class Headers : Type := {
  (* errno *)
  EINVAL : Z;
  ENOMEM : Z;
  EOVERFLOW : Z;
  (* tomcrypt.h: status codes, key kinds, padding modes, key structures *)
  CRYPT_OK : Z;
  CRYPT_BUFFER_OVERFLOW : Z;
  CRYPT_MEM : Z;
  PK_PUBLIC : Z;
  LTC_LTC_PKCS_1_V1_5 : Z;
  LTC_LTC_PKCS_1_OAEP : Z;
  LTC_LTC_PKCS_1_PSS : Z;
  rsa_key : Type;
  dsa_key : Type;
  (* the [type] member of [rsa_key] and of [dsa_key] *)
  rsa_key_type : rsa_key -> Z;
  dsa_key_type : dsa_key -> Z;
  (* ncr.h *)
  NCR_ALG_RSA : Z;
  NCR_ALG_DSA : Z;
  NCR_ALG_SHA1 : Z;
  RSA_PKCS1_V1_5 : Z;
  RSA_PKCS1_OAEP : Z;
  RSA_PKCS1_PSS : Z;
  NCR_VERIFICATION_FAILED : Z;
  (* ncr_int.h *)
  KEY_DATA_MAX_SIZE : Z;
  MAX_KEY_ID_SIZE : Z
}.

(** ** Memory regions *)

(** The bytes denoted by a pointer [buf] together with a length [n]. *)
Definition region (buf : list byte) (n : Z) : list byte :=
  firstn (Z.to_nat n) buf.

(** The buffer [buf] after [out] has been stored at its start. *)
Definition store (buf out : list byte) : list byte :=
  out ++ skipn (length out) buf.

(** A value stored through a [uint32_t] lvalue. *)
Definition uint32 (x : Z) : Z := x mod 2 ^ 32.

(** ** Data model *)

(** Modelled from the spec: [struct algo_properties_st] is declared in
    [ncr_int.h]; an entry of the algorithm registry identifies an algorithm,
    and [algo] is the only member this file reads. *)
Record algo_properties_st : Type := { algo : Z }.

(** A [const struct algo_properties_st *].  The registry is static and
    immutable, so a valid pointer is represented by the entry it points to;
    the other two cases are [NULL] and an errno encoded by [ERR_PTR]. *)
Inductive algo_ptr : Type :=
| NullPtr
| ErrPtr (e : Z)
| Ptr (p : algo_properties_st).

Definition algo_ptr_eqb (p q : algo_ptr) : bool :=
  match p, q with
  | NullPtr, NullPtr => true
  | ErrPtr e, ErrPtr e' => e =? e'
  | Ptr a, Ptr b => algo a =? algo b
  | _, _ => false
  end.

Definition ERR_PTR (e : Z) : algo_ptr := ErrPtr e.

Definition IS_ERR (p : algo_ptr) : bool :=
  match p with ErrPtr _ => true | _ => false end.

Definition PTR_ERR (p : algo_ptr) : Z :=
  match p with ErrPtr e => e | _ => 0 end.

Definition is_null {A : Type} (p : option A) : bool :=
  match p with None => true | Some _ => false end.

Definition algo_is_null (p : algo_ptr) : bool :=
  match p with NullPtr => true | _ => false end.

Section Model.

Context `{Headers}.

(** Modelled from the spec: [struct key_item_st] is declared in [ncr_int.h].
    A key item has an algorithm (a registry pointer, [NULL] while the item is
    empty), the family-specific key material [key.pk.rsa] and [key.pk.dsa],
    and the key identifier buffer with its actual length. *)
Record key_item_st : Type := {
  key_algorithm : algo_ptr;
  key_pk_rsa : rsa_key;
  key_pk_dsa : dsa_key;
  key_id : list byte;
  key_id_size : Z
}.

Definition set_key_algorithm (k : key_item_st) (a : algo_ptr) : key_item_st :=
  {| key_algorithm := a; key_pk_rsa := key_pk_rsa k; key_pk_dsa := key_pk_dsa k;
     key_id := key_id k; key_id_size := key_id_size k |}.

Definition set_key_pk_rsa (k : key_item_st) (r : rsa_key) : key_item_st :=
  {| key_algorithm := key_algorithm k; key_pk_rsa := r; key_pk_dsa := key_pk_dsa k;
     key_id := key_id k; key_id_size := key_id_size k |}.

Definition set_key_pk_dsa (k : key_item_st) (d : dsa_key) : key_item_st :=
  {| key_algorithm := key_algorithm k; key_pk_rsa := key_pk_rsa k; key_pk_dsa := d;
     key_id := key_id k; key_id_size := key_id_size k |}.

Definition set_key_id (k : key_item_st) (id : list byte) : key_item_st :=
  {| key_algorithm := key_algorithm k; key_pk_rsa := key_pk_rsa k;
     key_pk_dsa := key_pk_dsa k; key_id := id; key_id_size := key_id_size k |}.

Definition set_key_id_size (k : key_item_st) (n : Z) : key_item_st :=
  {| key_algorithm := key_algorithm k; key_pk_rsa := key_pk_rsa k;
     key_pk_dsa := key_pk_dsa k; key_id := key_id k; key_id_size := n |}.

(** Modelled from the spec: [struct ncr_key_generate_params_st] is declared in
    [ncr.h].  A generation request is an algorithm identifier plus the
    family-specific parameters [params.rsa] (modulus bits, public exponent) and
    [params.dsa] (q bits, p bits). *)
Record ncr_key_generate_params_st : Type := {
  gen_algorithm : Z;
  gen_rsa_bits : Z;
  gen_rsa_e : Z;
  gen_dsa_q_bits : Z;
  gen_dsa_p_bits : Z
}.

Definition set_gen_rsa_e (p : ncr_key_generate_params_st) (e : Z) :=
  {| gen_algorithm := gen_algorithm p; gen_rsa_bits := gen_rsa_bits p;
     gen_rsa_e := e; gen_dsa_q_bits := gen_dsa_q_bits p;
     gen_dsa_p_bits := gen_dsa_p_bits p |}.

Definition set_gen_dsa_q_bits (p : ncr_key_generate_params_st) (q : Z) :=
  {| gen_algorithm := gen_algorithm p; gen_rsa_bits := gen_rsa_bits p;
     gen_rsa_e := gen_rsa_e p; gen_dsa_q_bits := q;
     gen_dsa_p_bits := gen_dsa_p_bits p |}.

Definition set_gen_dsa_p_bits (p : ncr_key_generate_params_st) (b : Z) :=
  {| gen_algorithm := gen_algorithm p; gen_rsa_bits := gen_rsa_bits p;
     gen_rsa_e := gen_rsa_e p; gen_dsa_q_bits := gen_dsa_q_bits p;
     gen_dsa_p_bits := b |}.

(** Modelled from the spec: [struct ncr_key_params_st] is declared in [ncr.h].
    The cipher parameters are the RSA padding type, the OAEP mask hash, the
    PSS salt length and, per family, the hash used to sign and verify. *)
Record ncr_key_params_st : Type := {
  par_rsa_type : Z;
  par_rsa_oaep_hash : Z;
  par_rsa_sign_hash : Z;
  par_rsa_pss_salt : Z;
  par_dsa_sign_hash : Z
}.

(** Modelled from the spec: [struct ncr_pk_ctx] is declared in [ncr_int.h].
    The context binds an algorithm, a key it does not own ([NULL] when
    unbound), the padding type, the two hashes, the salt length and the
    [init] flag. *)
Record ncr_pk_ctx : Type := {
  ctx_algorithm : algo_ptr;
  ctx_sign_hash : algo_ptr;
  ctx_oaep_hash : algo_ptr;
  ctx_salt_len : Z;
  ctx_type : Z;
  ctx_key : option key_item_st;
  ctx_init : Z
}.

(** ** Calls into the collaborators

    One constructor per external routine the file calls.  An input region
    (pointer and length) is passed as the bytes it denotes; an in-out length is
    passed as its value before the call.  [reply] gives what the routine hands
    back: its return value and the new contents of its out-parameters (the
    bytes it stored at the start of the output buffer, the new length, the
    new key structure, the validity status). *)
Inductive call : Type :=
| Kmalloc (size : Z)
| Kfree
| QueueWork
| AlgoToProperties (id : Z)
| HashMemory (hash : algo_ptr) (data : list byte) (outlen : Z)
| RsaExport (outlen : Z) (type : Z) (key : rsa_key)
| RsaImport (data : list byte)
| DsaExport (outlen : Z) (type : Z) (key : dsa_key)
| DsaImport (data : list byte)
| RsaMakeKey (size : Z) (e : Z)
| DsaMakeKey (group_size : Z) (modulus_size : Z)
| RsaEncryptKeyEx (data : list byte) (outlen : Z) (hash : algo_ptr)
    (padding : Z) (key : rsa_key)
| RsaDecryptKeyEx (data : list byte) (outlen : Z) (hash : algo_ptr)
    (padding : Z) (key : rsa_key)
| RsaSignHashEx (data : list byte) (outlen : Z) (padding : Z) (hash : algo_ptr)
    (saltlen : Z) (key : rsa_key)
| DsaSignHash (data : list byte) (outlen : Z) (key : dsa_key)
| RsaVerifyHashEx (sig : list byte) (digest : list byte) (padding : Z)
    (hash : algo_ptr) (saltlen : Z) (key : rsa_key)
| DsaVerifyHash (sig : list byte) (digest : list byte) (key : dsa_key).

Definition reply (c : call) : Type :=
  match c with
  | Kmalloc _ => option (list byte)
  | Kfree => unit
  | QueueWork => Z
  | AlgoToProperties _ => algo_ptr
  | HashMemory _ _ _ => Z * list byte * Z
  | RsaExport _ _ _ => Z * list byte * Z
  | RsaImport _ => Z * rsa_key
  | DsaExport _ _ _ => Z * list byte * Z
  | DsaImport _ => Z * dsa_key
  | RsaMakeKey _ _ => Z * rsa_key
  | DsaMakeKey _ _ => Z * dsa_key
  | RsaEncryptKeyEx _ _ _ _ _ => Z * list byte * Z
  | RsaDecryptKeyEx _ _ _ _ _ => Z * list byte * Z * Z
  | RsaSignHashEx _ _ _ _ _ _ => Z * list byte * Z
  | DsaSignHash _ _ _ => Z * list byte * Z
  | RsaVerifyHashEx _ _ _ _ _ _ => Z * Z
  | DsaVerifyHash _ _ _ => Z * Z
  end.

(** What the collaborators answer during one run (for key generation this
    includes the random draw). *)
Definition oracle : Type := forall c : call, reply c.

(** ** Programs *)

(** A program returns, dereferences a null or invalid pointer ([Undefined]),
    or calls a collaborator and continues with its reply.

    A pointer argument is nullable in the model ([option]) when its function
    tests it against [NULL], and a pointer member ([NullPtr], [None]) when
    the file tests it against [NULL] or stores [NULL] into it.  The other
    pointer arguments ([ctx], [params], [output_size], [err], ...) are taken
    to point to valid objects and are passed as those objects, an in-out
    object being returned in its final state. *)
Inductive prog (A : Type) : Type :=
| Ret (a : A)
| Undefined
| Call (c : call) (k : reply c -> prog A).

Arguments Undefined {A}.

Fixpoint bind {A B : Type} (m : prog A) (f : A -> prog B) : prog B :=
  match m with
  | Ret a => f a
  | Undefined => Undefined
  | Call c k => Call c (fun r => bind (k r) f)
  end.

Definition invoke (c : call) : prog (reply c) := Call c (fun r => Ret r).

(** The result of a program against an oracle; [None] is the undefined run. *)
Fixpoint run {A : Type} (h : oracle) (m : prog A) : option A :=
  match m with
  | Ret a => Some a
  | Undefined => None
  | Call c k => run h (k (h c))
  end.

(** The calls a program makes against an oracle, in order. *)
Fixpoint calls {A : Type} (h : oracle) (m : prog A) : list call :=
  match m with
  | Ret _ => []
  | Undefined => []
  | Call c k => c :: calls h (k (h c))
  end.

(** [p->algo] for a registry pointer [p]. *)
Definition algo_of (p : algo_ptr) : prog Z :=
  match p with
  | Ptr a => Ret (algo a)
  | _ => Undefined
  end.

(** Dereference of a nullable pointer. *)
Definition load {A : Type} (p : option A) : prog A :=
  match p with
  | Some a => Ret a
  | None => Undefined
  end.

End Model.

Arguments Undefined {H A}.

Declare Scope prog_scope.
Delimit Scope prog_scope with prog.
Notation "x <- m ;; k" := (bind m (fun x => k))
  (at level 61, m at next level, right associativity) : prog_scope.
Notation "' pat <- m ;; k" := (bind m (fun x => match x with pat => k end))
  (at level 61, pat pattern, m at next level, right associativity) : prog_scope.
Notation "m ;;; k" := (bind m (fun _ => k))
  (at level 61, right associativity) : prog_scope.

Section Operations.

Context `{Headers}.

Local Open Scope prog_scope.

(** ** Error mapping *)

Definition tomerr (err : Z) : Z :=
  if err =? CRYPT_BUFFER_OVERFLOW then - EOVERFLOW
  else if err =? CRYPT_MEM then - ENOMEM
  else - EINVAL.

(** ** Public key and key identifier *)

(** The [fail:] label of [ncr_pk_make_public_and_id]: release [tmp] and
    return [ret]. *)
Definition leave (ret : Z) (private public : key_item_st)
  : prog (Z * key_item_st * key_item_st) :=
  invoke Kfree ;;; Ret (ret, private, public).

(** The part of [ncr_pk_make_public_and_id] after the [switch]: hash the
    exported bytes into [private->key_id], then copy size and identifier to
    [public]. *)
Definition make_key_id (tmp : list byte) (max_size : Z)
    (private public : key_item_st) : prog (Z * key_item_st * key_item_st) :=
  let key_id_size := MAX_KEY_ID_SIZE in
  sha1 <- invoke (AlgoToProperties NCR_ALG_SHA1) ;;
  '(cret, out, key_id_size) <-
     invoke (HashMemory sha1 (region tmp max_size) key_id_size) ;;
  let private := set_key_id private (store (key_id private) out) in
  if cret =? CRYPT_OK then
    let public := set_key_id_size public key_id_size in
    let private := set_key_id_size private key_id_size in
    let public :=
      set_key_id public
        (store (key_id public) (region (key_id private) key_id_size)) in
    leave 0 private public
  else
    leave (tomerr cret) private public.

Definition ncr_pk_make_public_and_id (private public : key_item_st)
  : prog (Z * key_item_st * key_item_st) :=
  let max_size := KEY_DATA_MAX_SIZE in
  tmp <- invoke (Kmalloc max_size) ;;
  match tmp with
  | None => Ret (- ENOMEM, private, public)
  | Some tmp =>
    id <- algo_of (key_algorithm private) ;;
    if id =? NCR_ALG_RSA then
      '(cret, out, max_size) <-
         invoke (RsaExport max_size PK_PUBLIC (key_pk_rsa private)) ;;
      let tmp := store tmp out in
      if cret =? CRYPT_OK then
        '(cret, imported) <- invoke (RsaImport (region tmp max_size)) ;;
        let public := set_key_pk_rsa public imported in
        if cret =? CRYPT_OK then make_key_id tmp max_size private public
        else leave (tomerr cret) private public
      else leave (tomerr cret) private public
    else if id =? NCR_ALG_DSA then
      '(cret, out, max_size) <-
         invoke (DsaExport max_size PK_PUBLIC (key_pk_dsa private)) ;;
      let tmp := store tmp out in
      if cret =? CRYPT_OK then
        '(cret, imported) <- invoke (DsaImport (region tmp max_size)) ;;
        let public := set_key_pk_dsa public imported in
        if cret =? CRYPT_OK then make_key_id tmp max_size private public
        else leave (tomerr cret) private public
      else leave (tomerr cret) private public
    else leave (- EINVAL) private public
  end.

(** ** Key serialisation *)

(** The [switch] of [ncr_pk_pack] and the final store of the size, entered
    with [max_size] already read from [*packed_size].  The result is the
    return value, the buffer and [*packed_size]. *)
Definition pack_export (key : key_item_st) (packed : option (list byte))
    (packed_size : option Z) (max_size : Z)
  : prog (Z * option (list byte) * option Z) :=
  buf <- load packed ;;
  id <- algo_of (key_algorithm key) ;;
  if id =? NCR_ALG_RSA then
    '(cret, out, max_size) <-
       invoke (RsaExport max_size (rsa_key_type (key_pk_rsa key)) (key_pk_rsa key)) ;;
    if cret =? CRYPT_OK then
      Ret (0, Some (store buf out), Some (uint32 max_size))
    else
      Ret (tomerr cret, Some (store buf out), Some (uint32 max_size))
  else if id =? NCR_ALG_DSA then
    '(cret, out, max_size) <-
       invoke (DsaExport max_size (dsa_key_type (key_pk_dsa key)) (key_pk_dsa key)) ;;
    if cret =? CRYPT_OK then
      Ret (0, Some (store buf out), Some (uint32 max_size))
    else
      Ret (tomerr cret, Some (store buf out), Some (uint32 max_size))
  else Ret (- EINVAL, packed, packed_size).

Definition ncr_pk_pack (key : key_item_st) (packed : option (list byte))
    (packed_size : option Z) : prog (Z * option (list byte) * option Z) :=
  max_size <- load packed_size ;;
  if is_null packed || is_null packed_size then
    Ret (- EINVAL, packed, packed_size)
  else pack_export key packed packed_size max_size.

(** [ncr_pk_pack] with the test on [packed_size] taken out of its guard:
    the text of [ncr_pk_pack] with [packed == NULL] as the whole condition. *)
Definition ncr_pk_pack_guarding_packed_only (key : key_item_st)
    (packed : option (list byte)) (packed_size : option Z)
  : prog (Z * option (list byte) * option Z) :=
  max_size <- load packed_size ;;
  if is_null packed then
    Ret (- EINVAL, packed, packed_size)
  else pack_export key packed packed_size max_size.

Definition ncr_pk_unpack (key : option key_item_st) (packed : option (list byte))
    (packed_size : Z) : prog (Z * option key_item_st) :=
  if is_null key || is_null packed then Ret (- EINVAL, key)
  else
    k <- load key ;;
    buf <- load packed ;;
    id <- algo_of (key_algorithm k) ;;
    if id =? NCR_ALG_RSA then
      '(cret, imported) <- invoke (RsaImport (region buf packed_size)) ;;
      let k := set_key_pk_rsa k imported in
      if cret =? CRYPT_OK then Ret (0, Some k)
      else Ret (tomerr cret, Some k)
    else if id =? NCR_ALG_DSA then
      '(cret, imported) <- invoke (DsaImport (region buf packed_size)) ;;
      let k := set_key_pk_dsa k imported in
      if cret =? CRYPT_OK then Ret (0, Some k)
      else Ret (tomerr cret, Some k)
    else Ret (- EINVAL, key).

(** ** Key generation *)

(** [struct keygen_st]: the work item's view of one generation.  The three
    pointers [private], [public] and [params] are represented by the objects
    they point to, which the generation owns until it completes. *)
Record keygen_st : Type := {
  st_ret : Z;
  st_algo : algo_ptr;
  st_private : key_item_st;
  st_public : key_item_st;
  st_params : ncr_key_generate_params_st
}.

Definition set_st_ret (st : keygen_st) (r : Z) : keygen_st :=
  {| st_ret := r; st_algo := st_algo st; st_private := st_private st;
     st_public := st_public st; st_params := st_params st |}.

Definition set_st_private (st : keygen_st) (k : key_item_st) : keygen_st :=
  {| st_ret := st_ret st; st_algo := st_algo st; st_private := k;
     st_public := st_public st; st_params := st_params st |}.

Definition set_st_params (st : keygen_st) (p : ncr_key_generate_params_st)
  : keygen_st :=
  {| st_ret := st_ret st; st_algo := st_algo st; st_private := st_private st;
     st_public := st_public st; st_params := p |}.

Definition keygen_handler (st : keygen_st) : prog keygen_st :=
  id <- algo_of (st_algo st) ;;
  if id =? NCR_ALG_RSA then
    let e := gen_rsa_e (st_params st) in
    let e := if e =? 0 then 65537 else e in
    '(cret, made) <- invoke (RsaMakeKey (gen_rsa_bits (st_params st) / 8) e) ;;
    let st := set_st_private st (set_key_pk_rsa (st_private st) made) in
    if cret =? CRYPT_OK then Ret (set_st_ret st 0)
    else Ret (set_st_ret st (tomerr cret))
  else if id =? NCR_ALG_DSA then
    let st :=
      if gen_dsa_q_bits (st_params st) =? 0
      then set_st_params st (set_gen_dsa_q_bits (st_params st) 160)
      else st in
    let st :=
      if gen_dsa_p_bits (st_params st) =? 0
      then set_st_params st (set_gen_dsa_p_bits (st_params st) 1024)
      else st in
    '(cret, made) <-
       invoke (DsaMakeKey (gen_dsa_q_bits (st_params st) / 8)
                          (gen_dsa_p_bits (st_params st) / 8)) ;;
    let st := set_st_private st (set_key_pk_dsa (st_private st) made) in
    if cret =? CRYPT_OK then Ret (set_st_ret st 0)
    else Ret (set_st_ret st (tomerr cret))
  else Ret (set_st_ret st (- EINVAL)).

(** The part of [ncr_pk_generate] after [wait_for_completion]: the work
    item has left its result in [st]. *)
Definition generate_finish (st : keygen_st)
  : prog (Z * ncr_key_generate_params_st * key_item_st * key_item_st) :=
  if st_ret st <? 0 then
    Ret (st_ret st, st_params st, st_private st, st_public st)
  else
    '(ret, private, public) <-
       ncr_pk_make_public_and_id (st_private st) (st_public st) ;;
    if ret <? 0 then Ret (ret, st_params st, private, public)
    else Ret (0, st_params st, private, public).

(** The work item is queued and the caller waits for its completion: in the
    caller's view [keygen_handler] has run when [wait_for_completion] returns.
    The result is the return value and the final request, private and public
    items. *)
Definition ncr_pk_generate (algo : algo_ptr)
    (params : ncr_key_generate_params_st) (private public : key_item_st)
  : prog (Z * ncr_key_generate_params_st * key_item_st * key_item_st) :=
  let public := set_key_algorithm public algo in
  let private := set_key_algorithm private algo in
  let st := {| st_ret := 0; st_algo := algo; st_private := private;
               st_public := public; st_params := params |} in
  ret <- invoke QueueWork ;;
  if ret <? 0 then Ret (ret, params, private, public)
  else
    st <- keygen_handler st ;;
    generate_finish st.

(** ** Cipher and signature context *)

Definition ncr_key_params_get_sign_hash (algo : algo_ptr)
    (params : ncr_key_params_st) : prog algo_ptr :=
  id <- algo_of algo ;;
  if id =? NCR_ALG_RSA then
    invoke (AlgoToProperties (par_rsa_sign_hash params))
  else if id =? NCR_ALG_DSA then
    invoke (AlgoToProperties (par_dsa_sign_hash params))
  else Ret (ERR_PTR (- EINVAL)).

(** The context after [memset(ctx, 0, sizeof( *ctx))]. *)
Definition ctx_zero : ncr_pk_ctx :=
  {| ctx_algorithm := NullPtr; ctx_sign_hash := NullPtr;
     ctx_oaep_hash := NullPtr; ctx_salt_len := 0; ctx_type := 0;
     ctx_key := None; ctx_init := 0 |}.

Definition set_ctx_algorithm (c : ncr_pk_ctx) (a : algo_ptr) : ncr_pk_ctx :=
  {| ctx_algorithm := a; ctx_sign_hash := ctx_sign_hash c;
     ctx_oaep_hash := ctx_oaep_hash c; ctx_salt_len := ctx_salt_len c;
     ctx_type := ctx_type c; ctx_key := ctx_key c; ctx_init := ctx_init c |}.

Definition set_ctx_sign_hash (c : ncr_pk_ctx) (a : algo_ptr) : ncr_pk_ctx :=
  {| ctx_algorithm := ctx_algorithm c; ctx_sign_hash := a;
     ctx_oaep_hash := ctx_oaep_hash c; ctx_salt_len := ctx_salt_len c;
     ctx_type := ctx_type c; ctx_key := ctx_key c; ctx_init := ctx_init c |}.

Definition set_ctx_oaep_hash (c : ncr_pk_ctx) (a : algo_ptr) : ncr_pk_ctx :=
  {| ctx_algorithm := ctx_algorithm c; ctx_sign_hash := ctx_sign_hash c;
     ctx_oaep_hash := a; ctx_salt_len := ctx_salt_len c;
     ctx_type := ctx_type c; ctx_key := ctx_key c; ctx_init := ctx_init c |}.

Definition set_ctx_salt_len (c : ncr_pk_ctx) (n : Z) : ncr_pk_ctx :=
  {| ctx_algorithm := ctx_algorithm c; ctx_sign_hash := ctx_sign_hash c;
     ctx_oaep_hash := ctx_oaep_hash c; ctx_salt_len := n;
     ctx_type := ctx_type c; ctx_key := ctx_key c; ctx_init := ctx_init c |}.

Definition set_ctx_type (c : ncr_pk_ctx) (t : Z) : ncr_pk_ctx :=
  {| ctx_algorithm := ctx_algorithm c; ctx_sign_hash := ctx_sign_hash c;
     ctx_oaep_hash := ctx_oaep_hash c; ctx_salt_len := ctx_salt_len c;
     ctx_type := t; ctx_key := ctx_key c; ctx_init := ctx_init c |}.

Definition set_ctx_key (c : ncr_pk_ctx) (k : option key_item_st) : ncr_pk_ctx :=
  {| ctx_algorithm := ctx_algorithm c; ctx_sign_hash := ctx_sign_hash c;
     ctx_oaep_hash := ctx_oaep_hash c; ctx_salt_len := ctx_salt_len c;
     ctx_type := ctx_type c; ctx_key := k; ctx_init := ctx_init c |}.

Definition set_ctx_init (c : ncr_pk_ctx) (i : Z) : ncr_pk_ctx :=
  {| ctx_algorithm := ctx_algorithm c; ctx_sign_hash := ctx_sign_hash c;
     ctx_oaep_hash := ctx_oaep_hash c; ctx_salt_len := ctx_salt_len c;
     ctx_type := ctx_type c; ctx_key := ctx_key c; ctx_init := i |}.


(** The result is the return value and the context as the call leaves it. *)
Definition ncr_pk_cipher_init (algo : algo_ptr) (ctx : ncr_pk_ctx)
    (params : ncr_key_params_st) (key : key_item_st) : prog (Z * ncr_pk_ctx) :=
  let ctx := ctx_zero in
  if negb (algo_ptr_eqb (key_algorithm key) algo) then Ret (- EINVAL, ctx)
  else
    let ctx := set_ctx_algorithm ctx algo in
    let ctx := set_ctx_key ctx (Some key) in
    sign_hash <- ncr_key_params_get_sign_hash algo params ;;
    let ctx := set_ctx_sign_hash ctx sign_hash in
    if IS_ERR (ctx_sign_hash ctx) then Ret (PTR_ERR (ctx_sign_hash ctx), ctx)
    else
      id <- algo_of algo ;;
      if id =? NCR_ALG_RSA then
        if par_rsa_type params =? RSA_PKCS1_V1_5 then
          let ctx := set_ctx_type ctx LTC_LTC_PKCS_1_V1_5 in
          let ctx := set_ctx_salt_len ctx (par_rsa_pss_salt params) in
          Ret (0, set_ctx_init ctx 1)
        else if par_rsa_type params =? RSA_PKCS1_OAEP then
          let ctx := set_ctx_type ctx LTC_LTC_PKCS_1_OAEP in
          oaep_hash <- invoke (AlgoToProperties (par_rsa_oaep_hash params)) ;;
          let ctx := set_ctx_oaep_hash ctx oaep_hash in
          if algo_is_null (ctx_oaep_hash ctx) then Ret (- EINVAL, ctx)
          else
            let ctx := set_ctx_salt_len ctx (par_rsa_pss_salt params) in
            Ret (0, set_ctx_init ctx 1)
        else
          let ctx :=
            if par_rsa_type params =? RSA_PKCS1_PSS
            then set_ctx_type ctx LTC_LTC_PKCS_1_PSS else ctx in
          let ctx := set_ctx_salt_len ctx (par_rsa_pss_salt params) in
          Ret (0, set_ctx_init ctx 1)
      else if id =? NCR_ALG_DSA then
        Ret (0, set_ctx_init ctx 1)
      else Ret (- EINVAL, ctx).

(** [&ctx->key->key.pk.rsa] and [&ctx->key->key.pk.dsa], handed to a
    primitive that reads the key through it.  The file only forms the
    address; with a null [ctx->key] it is the primitive that reads through an
    invalid address.  The model has no call for a primitive on a missing key
    and ends that run as [Undefined] here. *)
Definition ctx_rsa (ctx : ncr_pk_ctx) : prog rsa_key :=
  k <- load (ctx_key ctx) ;; Ret (key_pk_rsa k).

Definition ctx_dsa (ctx : ncr_pk_ctx) : prog dsa_key :=
  k <- load (ctx_key ctx) ;; Ret (key_pk_dsa k).

(** The cipher operations return the return value, the output buffer and
    [*output_size]. *)
Definition ncr_pk_cipher_encrypt (ctx : ncr_pk_ctx) (input : list byte)
    (input_size : Z) (output : list byte) (output_size : Z)
  : prog (Z * list byte * Z) :=
  let osize := output_size in
  id <- algo_of (ctx_algorithm ctx) ;;
  if id =? NCR_ALG_RSA then
    rsa <- ctx_rsa ctx ;;
    '(cret, out, osize) <-
       invoke (RsaEncryptKeyEx (region input input_size) osize
                 (ctx_oaep_hash ctx) (ctx_type ctx) rsa) ;;
    let output := store output out in
    if cret =? CRYPT_OK then Ret (0, output, osize)
    else Ret (tomerr cret, output, output_size)
  else if id =? NCR_ALG_DSA then Ret (- EINVAL, output, output_size)
  else Ret (- EINVAL, output, output_size).

Definition ncr_pk_cipher_decrypt (ctx : ncr_pk_ctx) (input : list byte)
    (input_size : Z) (output : list byte) (output_size : Z)
  : prog (Z * list byte * Z) :=
  let osize := output_size in
  id <- algo_of (ctx_algorithm ctx) ;;
  if id =? NCR_ALG_RSA then
    rsa <- ctx_rsa ctx ;;
    '(cret, out, osize, stat) <-
       invoke (RsaDecryptKeyEx (region input input_size) osize
                 (ctx_oaep_hash ctx) (ctx_type ctx) rsa) ;;
    let output := store output out in
    if cret =? CRYPT_OK then
      if stat =? 0 then Ret (- EINVAL, output, output_size)
      else Ret (0, output, osize)
    else Ret (tomerr cret, output, output_size)
  else if id =? NCR_ALG_DSA then Ret (- EINVAL, output, output_size)
  else Ret (- EINVAL, output, output_size).

Definition ncr_pk_cipher_sign (ctx : ncr_pk_ctx) (input : list byte)
    (input_size : Z) (output : list byte) (output_size : Z)
  : prog (Z * list byte * Z) :=
  let osize := output_size in
  id <- algo_of (ctx_algorithm ctx) ;;
  if id =? NCR_ALG_RSA then
    if algo_is_null (ctx_sign_hash ctx) then Ret (- EINVAL, output, output_size)
    else
      rsa <- ctx_rsa ctx ;;
      '(cret, out, osize) <-
         invoke (RsaSignHashEx (region input input_size) osize (ctx_type ctx)
                   (ctx_sign_hash ctx) (ctx_salt_len ctx) rsa) ;;
      let output := store output out in
      if cret =? CRYPT_OK then Ret (0, output, osize)
      else Ret (tomerr cret, output, output_size)
  else if id =? NCR_ALG_DSA then
    dsa <- ctx_dsa ctx ;;
    '(cret, out, osize) <-
       invoke (DsaSignHash (region input input_size) osize dsa) ;;
    let output := store output out in
    if cret =? CRYPT_OK then Ret (0, output, osize)
    else Ret (tomerr cret, output, output_size)
  else Ret (- EINVAL, output, output_size).

(** The result is the return value and [*err]. *)
Definition ncr_pk_cipher_verify (ctx : ncr_pk_ctx) (signature : list byte)
    (signature_size : Z) (hash : list byte) (hash_size : Z) (err : Z)
  : prog (Z * Z) :=
  id <- algo_of (ctx_algorithm ctx) ;;
  if id =? NCR_ALG_RSA then
    if algo_is_null (ctx_sign_hash ctx) then Ret (- EINVAL, err)
    else
      rsa <- ctx_rsa ctx ;;
      '(cret, stat) <-
         invoke (RsaVerifyHashEx (region signature signature_size)
                   (region hash hash_size) (ctx_type ctx) (ctx_sign_hash ctx)
                   (ctx_salt_len ctx) rsa) ;;
      if cret =? CRYPT_OK then
        if stat =? 1 then Ret (0, 0)
        else Ret (0, NCR_VERIFICATION_FAILED)
      else Ret (tomerr cret, err)
  else if id =? NCR_ALG_DSA then
    dsa <- ctx_dsa ctx ;;
    '(cret, stat) <-
       invoke (DsaVerifyHash (region signature signature_size)
                 (region hash hash_size) dsa) ;;
    if cret =? CRYPT_OK then
      if stat =? 1 then Ret (0, 0)
      else Ret (0, NCR_VERIFICATION_FAILED)
    else Ret (tomerr cret, err)
  else Ret (- EINVAL, err).

End Operations.

(** ** What the properties assume of the collaborators *)

Section Contracts.

Context `{Headers}.

(** Error numbers are positive, so every failure is a negative return value. *)
Definition errno_positive : Prop :=
  0 < EINVAL /\ 0 < ENOMEM /\ 0 < EOVERFLOW.

(** A routine that returns [CRYPT_OK] for an output buffer of capacity [cap]
    has stored exactly the [n] bytes it reports, and [n] is within [cap]. *)
Definition fits (cap : Z) (r : Z * list byte * Z) : Prop :=
  match r with
  | (cret, out, n) => cret = CRYPT_OK -> n = Z.of_nat (length out) /\ n <= cap
  end.

Definition hash_sized (h : oracle) : Prop :=
  forall hash data cap, fits cap (h (HashMemory hash data cap)).

Definition export_sized (h : oracle) : Prop :=
  (forall cap type k, fits cap (h (RsaExport cap type k))) /\
  (forall cap type k, fits cap (h (DsaExport cap type k))).

(** The public encoding is canonical: a key imported from the public export
    of some key exports, under its own type, to the same bytes. *)
Definition public_export_canonical (h : oracle) : Prop :=
  (forall cap k out n k' cap' out' n',
      h (RsaExport cap PK_PUBLIC k) = (CRYPT_OK, out, n) ->
      h (RsaImport out) = (CRYPT_OK, k') ->
      h (RsaExport cap' (rsa_key_type k') k') = (CRYPT_OK, out', n') ->
      out' = out) /\
  (forall cap k out n k' cap' out' n',
      h (DsaExport cap PK_PUBLIC k) = (CRYPT_OK, out, n) ->
      h (DsaImport out) = (CRYPT_OK, k') ->
      h (DsaExport cap' (dsa_key_type k') k') = (CRYPT_OK, out', n') ->
      out' = out).




(** The export the library performs for [key], by the family of its
    algorithm, into a buffer of capacity [cap]. *)
Definition key_export (h : oracle) (key : key_item_st) (cap : Z)
  : option (Z * list byte * Z) :=
  match key_algorithm key with
  | Ptr a =>
    if algo a =? NCR_ALG_RSA then
      Some (h (RsaExport cap (rsa_key_type (key_pk_rsa key)) (key_pk_rsa key)))
    else if algo a =? NCR_ALG_DSA then
      Some (h (DsaExport cap (dsa_key_type (key_pk_dsa key)) (key_pk_dsa key)))
    else None
  | _ => None
  end.

(** The packed encoding of [key] requires [n] bytes: the library reports
    overflow and the size [n] for every smaller capacity, and succeeds with
    [n] bytes from capacity [n] on. *)
Definition encoding_requires (h : oracle) (key : key_item_st) (n : Z) : Prop :=
  forall cap, 0 <= cap ->
    (cap < n -> exists out,
        key_export h key cap = Some (CRYPT_BUFFER_OVERFLOW, out, n)) /\
    (n <= cap -> exists out,
        key_export h key cap = Some (CRYPT_OK, out, n)).

(** The identifier of a key item: the first [key_id_size] bytes of its
    identifier buffer. *)
Definition key_identifier (k : key_item_st) : list byte :=
  region (key_id k) (key_id_size k).

(** The reply of a signature verification primitive, for a call that is
    one. *)
Definition verify_reply (h : oracle) (c : call) : option (Z * Z) :=
  match c with
  | RsaVerifyHashEx sig digest padding hash saltlen k =>
      Some (h (RsaVerifyHashEx sig digest padding hash saltlen k))
  | DsaVerifyHash sig digest k => Some (h (DsaVerifyHash sig digest k))
  | _ => None
  end.

(** A generation request with the DSA defaults filled in. *)
Definition dsa_defaults (p : ncr_key_generate_params_st)
  : ncr_key_generate_params_st :=
  {| gen_algorithm := gen_algorithm p;
     gen_rsa_bits := gen_rsa_bits p;
     gen_rsa_e := gen_rsa_e p;
     gen_dsa_q_bits := if gen_dsa_q_bits p =? 0 then 160 else gen_dsa_q_bits p;
     gen_dsa_p_bits := if gen_dsa_p_bits p =? 0 then 1024 else gen_dsa_p_bits p |}.

(** What a generation hands back besides the request: the return value and
    the private and public items. *)
Definition generated
    (r : option (Z * ncr_key_generate_params_st * key_item_st * key_item_st))
  : option (Z * key_item_st * key_item_st) :=
  match r with
  | Some (ret, _, private, public) => Some (ret, private, public)
  | None => None
  end.

(** Two states of a work item that differ at most in the request. *)
Definition same_keys (st st' : keygen_st) : Prop :=
  st_ret st = st_ret st' /\ st_algo st = st_algo st' /\
  st_private st = st_private st' /\ st_public st = st_public st'.

Definition same_keys_opt (r r' : option keygen_st) : Prop :=
  match r, r' with
  | Some st, Some st' => same_keys st st'
  | None, None => True
  | _, _ => False
  end.

End Contracts.

(** ** A sample platform

    One assignment of the header constants and a small stand-in for the
    collaborators, on which the model runs on concrete inputs.  A sample key
    is its type together with its material; the sample encoding is a tag byte
    for the type followed by the material. *)

Definition sample_key : Type := (Z * list byte)%type.

Definition sample_headers : Headers :=
  {| EINVAL := 22; ENOMEM := 12; EOVERFLOW := 75;
     CRYPT_OK := 0; CRYPT_BUFFER_OVERFLOW := 6; CRYPT_MEM := 13;
     PK_PUBLIC := 0;
     LTC_LTC_PKCS_1_V1_5 := 1; LTC_LTC_PKCS_1_OAEP := 2; LTC_LTC_PKCS_1_PSS := 3;
     rsa_key := sample_key; dsa_key := sample_key;
     rsa_key_type := fst; dsa_key_type := fst;
     NCR_ALG_RSA := 101; NCR_ALG_DSA := 102; NCR_ALG_SHA1 := 40;
     RSA_PKCS1_V1_5 := 0; RSA_PKCS1_OAEP := 1; RSA_PKCS1_PSS := 2;
     NCR_VERIFICATION_FAILED := -2;
     KEY_DATA_MAX_SIZE := 3 * 1024; MAX_KEY_ID_SIZE := 20 |}.

Definition sample_tag (type : Z) : byte :=
  if type =? 0 then x00 else x01.

Definition sample_type (tag : byte) : Z :=
  if Byte.eqb tag x00 then 0 else 1.

Definition sample_encode (type : Z) (k : sample_key) : list byte :=
  sample_tag type :: snd k.

(** Hand [bytes] out through a buffer of capacity [cap]. *)
Definition sample_output (cap : Z) (bytes : list byte) : Z * list byte * Z :=
  if cap <? Z.of_nat (length bytes)
  then (6, [], Z.of_nat (length bytes))
  else (0, bytes, Z.of_nat (length bytes)).

Definition sample_import (data : list byte) : Z * sample_key :=
  match data with
  | tag :: material => (0, (sample_type tag, material))
  | [] => (7, (0, []))
  end.

Definition sample_digest (data : list byte) : list byte :=
  [x5a; match Byte.of_N (N.of_nat (length data) mod 256) with
        | Some b => b
        | None => x00
        end].

Fixpoint bytes_eqb (a b : list byte) : bool :=
  match a, b with
  | [], [] => true
  | x :: a', y :: b' => Byte.eqb x y && bytes_eqb a' b'
  | _, _ => false
  end.

Definition sample_oracle : @oracle sample_headers :=
  fun c =>
    match c as c0 return @reply sample_headers c0 with
    | Kmalloc size => Some (repeat x00 (Z.to_nat size))
    | Kfree => tt
    | QueueWork => 1
    | AlgoToProperties id =>
        if (id =? 40) || (id =? 101) || (id =? 102)
        then Ptr {| algo := id |} else NullPtr
    | HashMemory _ data cap => sample_output cap (sample_digest data)
    | RsaExport cap type k => sample_output cap (sample_encode type k)
    | RsaImport data => sample_import data
    | DsaExport cap type k => sample_output cap (sample_encode type k)
    | DsaImport data => sample_import data
    | RsaMakeKey size e => (0, (1, [x2a; x17]))
    | DsaMakeKey q p => (0, (1, [x0d; x5c]))
    | RsaEncryptKeyEx data cap _ _ k => sample_output cap (snd k ++ data)
    | RsaDecryptKeyEx data cap _ _ k =>
        (sample_output cap (skipn (length (snd k)) data),
         if bytes_eqb (firstn (length (snd k)) data) (snd k) then 1 else 0)
    | RsaSignHashEx data cap _ _ _ k => sample_output cap (snd k ++ data)
    | DsaSignHash data cap k => sample_output cap (snd k ++ data)
    | RsaVerifyHashEx sig digest _ _ _ k =>
        (0, if bytes_eqb sig (snd k ++ digest) then 1 else 0)
    | DsaVerifyHash sig digest k =>
        (0, if bytes_eqb sig (snd k ++ digest) then 1 else 0)
    end.

Definition sample_empty_key : @key_item_st sample_headers :=
  @Build_key_item_st sample_headers NullPtr (0, []) (0, []) (repeat x00 20) 0.

Definition sample_rsa : algo_ptr := Ptr {| algo := 101 |}.
Definition sample_dsa : algo_ptr := Ptr {| algo := 102 |}.

Definition sample_request : ncr_key_generate_params_st :=
  {| gen_algorithm := 101; gen_rsa_bits := 1024; gen_rsa_e := 0;
     gen_dsa_q_bits := 0; gen_dsa_p_bits := 0 |}.

(** The outcome of an RSA and of a DSA generation on the sample platform. *)
Definition sample_generation (algorithm : algo_ptr) :=
  @run sample_headers _ sample_oracle
    (@ncr_pk_generate sample_headers algorithm sample_request
       sample_empty_key sample_empty_key).

Definition sample_private : @key_item_st sample_headers :=
  Eval vm_compute in
    match sample_generation sample_rsa with
    | Some (_, _, private, _) => private
    | None => sample_empty_key
    end.

Definition sample_public : @key_item_st sample_headers :=
  Eval vm_compute in
    match sample_generation sample_rsa with
    | Some (_, _, _, public) => public
    | None => sample_empty_key
    end.

(** A context bound to the sample public key, for RSA and for DSA. *)
Definition sample_ctx (algorithm : algo_ptr) : @ncr_pk_ctx sample_headers :=
  @Build_ncr_pk_ctx sample_headers algorithm (Ptr {| algo := 40 |}) NullPtr
    0 1 (Some sample_public) 1.

Definition sample_params : ncr_key_params_st :=
  {| par_rsa_type := 0; par_rsa_oaep_hash := 0; par_rsa_sign_hash := 40;
     par_rsa_pss_salt := 0; par_dsa_sign_hash := 40 |}.

(** ** Release of key material *)

Section Release.

Context `{Headers}.

(** The release routines of the library, [rsa_free] and [dsa_free], with the
    key structure they are handed. *)
Inductive free_call : Type :=
| RsaFree (key : rsa_key)
| DsaFree (key : dsa_key).

(** [ncr_pk_clear] returns nothing; its effect is the release it asks of the
    library.  The result is the list of release calls it makes, [None] when it
    reads the algorithm through an invalid pointer. *)
Definition ncr_pk_clear (key : key_item_st) : option (list free_call) :=
  if algo_is_null (key_algorithm key) then Some []
  else
    match key_algorithm key with
    | Ptr a =>
      if algo a =? NCR_ALG_RSA then Some [RsaFree (key_pk_rsa key)]
      else if algo a =? NCR_ALG_DSA then Some [DsaFree (key_pk_dsa key)]
      else Some []
    | _ => None
    end.

(** The return values the file produces on its own: success and the three
    error numbers of [tomerr]. *)
Definition mapped_codes : list Z := [0; - EOVERFLOW; - ENOMEM; - EINVAL].

Definition is_kfree (c : call) : bool :=
  match c with Kfree => true | _ => false end.

Definition is_kmalloc (c : call) : bool :=
  match c with Kmalloc _ => true | _ => false end.

(** The reply of a signing primitive, for a call that is one. *)
Definition sign_reply (h : oracle) (c : call) : option (Z * list byte * Z) :=
  match c with
  | RsaSignHashEx data cap padding hash saltlen k =>
      Some (h (RsaSignHashEx data cap padding hash saltlen k))
  | DsaSignHash data cap k => Some (h (DsaSignHash data cap k))
  | _ => None
  end.

End Release.

(** A registry entry of the sample platform that is neither RSA nor DSA. *)
Definition sample_sha1 : algo_ptr := Ptr {| algo := 40 |}.

Definition sample_oaep_params : ncr_key_params_st :=
  {| par_rsa_type := 1; par_rsa_oaep_hash := 7; par_rsa_sign_hash := 40;
     par_rsa_pss_salt := 0; par_dsa_sign_hash := 40 |}.

Definition sample_odd_params : ncr_key_params_st :=
  {| par_rsa_type := 9; par_rsa_oaep_hash := 0; par_rsa_sign_hash := 40;
     par_rsa_pss_salt := 5; par_dsa_sign_hash := 40 |}.

(** * Properties *)

Section Properties.

Context `{Headers}.

(** ** Basic facts about the model *)

Lemma algo_ptr_eqb_eq (p q : algo_ptr) : algo_ptr_eqb p q = true <-> p = q.
Proof.
  destruct p as [|e|[a]], q as [|e'|[b]]; simpl; split; intros E;
    try reflexivity; try discriminate.
  - apply Z.eqb_eq in E. now subst.
  - injection E as ->. apply Z.eqb_refl.
  - apply Z.eqb_eq in E. now subst.
  - injection E as ->. apply Z.eqb_refl.
Qed.

Lemma algo_ptr_eqb_neq (p q : algo_ptr) : p <> q -> algo_ptr_eqb p q = false.
Proof.
  intros N. destruct (algo_ptr_eqb p q) eqn:E; [|reflexivity].
  apply algo_ptr_eqb_eq in E. contradiction.
Qed.

Lemma tomerr_cases (err : Z) :
  tomerr err = - EOVERFLOW \/ tomerr err = - ENOMEM \/ tomerr err = - EINVAL.
Proof.
  unfold tomerr.
  destruct (err =? CRYPT_BUFFER_OVERFLOW); [now left|].
  destruct (err =? CRYPT_MEM); [now right; left | now right; right].
Qed.

Lemma tomerr_negative (err : Z) : errno_positive -> tomerr err < 0.
Proof.
  intros (Hi & Hm & Ho).
  destruct (tomerr_cases err) as [E|[E|E]]; rewrite E; lia.
Qed.

Lemma tomerr_overflow : tomerr CRYPT_BUFFER_OVERFLOW = - EOVERFLOW.
Proof. unfold tomerr. now rewrite Z.eqb_refl. Qed.

Lemma region_store (buf out : list byte) (n : Z) :
  n = Z.of_nat (length out) -> region (store buf out) n = out.
Proof.
  intros ->. unfold region, store. rewrite Nat2Z.id.
  rewrite firstn_app, Nat.sub_diag, firstn_all. simpl. apply app_nil_r.
Qed.

Lemma uint32_small (n : Z) : 0 <= n < 2 ^ 32 -> uint32 n = n.
Proof. intros R. unfold uint32. now apply Z.mod_small. Qed.

Lemma run_bind {A B : Type} (h : oracle) (m : prog A) (f : A -> prog B) :
  run h (bind m f) =
  match run h m with
  | Some a => run h (f a)
  | None => None
  end.
Proof. induction m as [a| |c k IH]; simpl; auto. Qed.

Lemma calls_bind {A B : Type} (h : oracle) (m : prog A) (f : A -> prog B) :
  calls h (bind m f) =
  calls h m ++ match run h m with
               | Some a => calls h (f a)
               | None => []
               end.
Proof.
  induction m as [a| |c k IH]; simpl; auto.
  now rewrite IH.
Qed.

(** ** Context initialisation *)

(** C6.  When the key's algorithm is not the requested one,
    [ncr_pk_cipher_init] returns [-EINVAL] whatever the parameters are, calls
    no collaborator, and leaves the context zeroed, so its [init] flag is not
    set. *)
Theorem init_algorithm_mismatch (h : oracle) (algo : algo_ptr)
    (ctx : ncr_pk_ctx) (params : ncr_key_params_st) (key : key_item_st) :
  key_algorithm key <> algo ->
  run h (ncr_pk_cipher_init algo ctx params key) = Some (- EINVAL, ctx_zero) /\
  ctx_init ctx_zero = 0 /\
  calls h (ncr_pk_cipher_init algo ctx params key) = [].
Proof.
  intros N. unfold ncr_pk_cipher_init.
  rewrite (algo_ptr_eqb_neq N). simpl. repeat split.
Qed.

(** ** Encryption and decryption *)

(** C5.  On a context whose algorithm is DSA, [ncr_pk_cipher_encrypt] and
    [ncr_pk_cipher_decrypt] return [-EINVAL] for every input, leave the output
    buffer and size as they were, and make no call at all: the program is the
    bare return. *)
Theorem dsa_encrypt_decrypt_unsupported (ctx : ncr_pk_ctx)
    (p : algo_properties_st) (input output : list byte)
    (input_size output_size : Z) :
  NCR_ALG_RSA <> NCR_ALG_DSA ->
  ctx_algorithm ctx = Ptr p ->
  algo p = NCR_ALG_DSA ->
  ncr_pk_cipher_encrypt ctx input input_size output output_size
    = Ret (- EINVAL, output, output_size) /\
  ncr_pk_cipher_decrypt ctx input input_size output output_size
    = Ret (- EINVAL, output, output_size) /\
  forall h : oracle,
    run h (ncr_pk_cipher_encrypt ctx input input_size output output_size)
      = Some (- EINVAL, output, output_size) /\
    calls h (ncr_pk_cipher_encrypt ctx input input_size output output_size) = [] /\
    run h (ncr_pk_cipher_decrypt ctx input input_size output output_size)
      = Some (- EINVAL, output, output_size) /\
    calls h (ncr_pk_cipher_decrypt ctx input input_size output output_size) = [].
Proof.
  intros D Ea Ed.
  assert (R : (algo p =? NCR_ALG_RSA) = false).
  { apply Z.eqb_neq. rewrite Ed. congruence. }
  assert (E1 : ncr_pk_cipher_encrypt ctx input input_size output output_size
               = Ret (- EINVAL, output, output_size)).
  { unfold ncr_pk_cipher_encrypt. rewrite Ea. simpl. rewrite R, Ed, Z.eqb_refl.
    reflexivity. }
  assert (E2 : ncr_pk_cipher_decrypt ctx input input_size output output_size
               = Ret (- EINVAL, output, output_size)).
  { unfold ncr_pk_cipher_decrypt. rewrite Ea. simpl. rewrite R, Ed, Z.eqb_refl.
    reflexivity. }
  split; [exact E1|]. split; [exact E2|].
  intros h. rewrite E1, E2. simpl. repeat split.
Qed.

(** C3.  When a run of [ncr_pk_cipher_decrypt] reaches the RSA decryption
    primitive and the primitive returns [CRYPT_OK] with validity status [0],
    the operation returns [-EINVAL] and [*output_size] keeps the value it had
    on entry. *)
Theorem decrypt_invalid_padding (h : oracle) (ctx : ncr_pk_ctx)
    (input output : list byte) (input_size output_size : Z)
    (data : list byte) (cap : Z) (hash : algo_ptr) (padding : Z) (k : rsa_key)
    (out : list byte) (n : Z) :
  In (RsaDecryptKeyEx data cap hash padding k)
     (calls h (ncr_pk_cipher_decrypt ctx input input_size output output_size)) ->
  h (RsaDecryptKeyEx data cap hash padding k) = (CRYPT_OK, out, n, 0) ->
  run h (ncr_pk_cipher_decrypt ctx input input_size output output_size)
    = Some (- EINVAL, store output out, output_size).
Proof.
  unfold ncr_pk_cipher_decrypt, ctx_rsa.
  destruct (ctx_algorithm ctx) as [|e|a]; simpl; try tauto.
  destruct (algo a =? NCR_ALG_RSA).
  - destruct (ctx_key ctx) as [key|]; simpl; [|tauto].
    match goal with
    | |- (?c = _ \/ _) -> _ =>
        destruct (h c) as [[[cret o] m] stat] eqn:Q; intros [E|F] R
    end.
    + injection E as <- <- <- <- <-. rewrite Q in R.
      injection R as -> -> -> ->.
      now rewrite !Z.eqb_refl.
    + destruct (cret =? CRYPT_OK), (stat =? 0); destruct F.
  - destruct (algo a =? NCR_ALG_DSA); simpl; tauto.
Qed.

(** ** Signature verification *)

(** C2.  On a context whose algorithm is RSA, with a key bound and a
    signature hash set, [ncr_pk_cipher_verify] makes exactly one call, to the
    RSA verification primitive on the context's key and parameters; on a DSA
    context with a key bound it makes exactly one call, to the DSA
    verification primitive.  When that primitive returns [CRYPT_OK] with
    status [stat], the function returns [0] and [*err] is [0] if [stat] is
    [1] and [NCR_VERIFICATION_FAILED] otherwise; the same holds of any run
    that reaches a verification primitive.  The return value of every run is
    [0] or one of the three mapped error numbers, so it is never
    [NCR_VERIFICATION_FAILED] as long as that value is none of them. *)
Theorem verify_outcome (h : oracle) (ctx : ncr_pk_ctx)
    (signature hash : list byte) (signature_size hash_size err : Z) :
  ~ In NCR_VERIFICATION_FAILED [0; - EOVERFLOW; - ENOMEM; - EINVAL] ->
  (forall a k,
      ctx_algorithm ctx = Ptr a -> ctx_key ctx = Some k ->
      algo a = NCR_ALG_RSA -> ctx_sign_hash ctx <> NullPtr ->
      let c := RsaVerifyHashEx (region signature signature_size)
                 (region hash hash_size) (ctx_type ctx) (ctx_sign_hash ctx)
                 (ctx_salt_len ctx) (key_pk_rsa k) in
      calls h (ncr_pk_cipher_verify ctx signature signature_size
                 hash hash_size err) = [c] /\
      forall stat,
        h c = (CRYPT_OK, stat) ->
        run h (ncr_pk_cipher_verify ctx signature signature_size
                 hash hash_size err)
          = Some (0, if stat =? 1 then 0 else NCR_VERIFICATION_FAILED)) /\
  (forall a k,
      ctx_algorithm ctx = Ptr a -> ctx_key ctx = Some k ->
      algo a = NCR_ALG_DSA -> NCR_ALG_RSA <> NCR_ALG_DSA ->
      let c := DsaVerifyHash (region signature signature_size)
                 (region hash hash_size) (key_pk_dsa k) in
      calls h (ncr_pk_cipher_verify ctx signature signature_size
                 hash hash_size err) = [c] /\
      forall stat,
        h c = (CRYPT_OK, stat) ->
        run h (ncr_pk_cipher_verify ctx signature signature_size
                 hash hash_size err)
          = Some (0, if stat =? 1 then 0 else NCR_VERIFICATION_FAILED)) /\
  (forall c stat,
      In c (calls h (ncr_pk_cipher_verify ctx signature signature_size
                       hash hash_size err)) ->
      verify_reply h c = Some (CRYPT_OK, stat) ->
      run h (ncr_pk_cipher_verify ctx signature signature_size hash hash_size err)
        = Some (0, if stat =? 1 then 0 else NCR_VERIFICATION_FAILED)) /\
  (forall ret err',
      run h (ncr_pk_cipher_verify ctx signature signature_size hash hash_size err)
        = Some (ret, err') ->
      In ret [0; - EOVERFLOW; - ENOMEM; - EINVAL] /\
      ret <> NCR_VERIFICATION_FAILED).
Proof.
  intros N.
  assert (M : forall ret, In ret [0; - EOVERFLOW; - ENOMEM; - EINVAL] ->
                In ret [0; - EOVERFLOW; - ENOMEM; - EINVAL] /\
                ret <> NCR_VERIFICATION_FAILED).
  { intros ret I. split; [exact I|]. intros ->. exact (N I). }
  assert (T : forall cret, In (tomerr cret) [0; - EOVERFLOW; - ENOMEM; - EINVAL]).
  { intros cret. simpl. destruct (tomerr_cases cret) as [E|[E|E]]; rewrite E; auto. }
  split; [|split].
  - intros a k Ea Ek Er Es c. subst c.
    unfold ncr_pk_cipher_verify, ctx_rsa.
    rewrite Ea, Ek. simpl. rewrite Er, Z.eqb_refl.
    destruct (ctx_sign_hash ctx) as [|e|p] eqn:Eh; [contradiction| |]; simpl.
    + destruct (h (RsaVerifyHashEx _ _ _ _ _ _)) as [cret st] eqn:Q.
      split.
      * destruct (cret =? CRYPT_OK); [destruct (st =? 1)|]; reflexivity.
      * intros stat [= -> ->]. rewrite Z.eqb_refl.
        now destruct (stat =? 1).
    + destruct (h (RsaVerifyHashEx _ _ _ _ _ _)) as [cret st] eqn:Q.
      split.
      * destruct (cret =? CRYPT_OK); [destruct (st =? 1)|]; reflexivity.
      * intros stat [= -> ->]. rewrite Z.eqb_refl.
        now destruct (stat =? 1).
  - intros a k Ea Ek Ed D c. subst c.
    assert (R : (NCR_ALG_DSA =? NCR_ALG_RSA) = false)
      by (apply Z.eqb_neq; congruence).
    unfold ncr_pk_cipher_verify, ctx_dsa.
    rewrite Ea, Ek. simpl. rewrite Ed, R, Z.eqb_refl. simpl.
    destruct (h (DsaVerifyHash _ _ _)) as [cret st] eqn:Q.
    split.
    + destruct (cret =? CRYPT_OK); [destruct (st =? 1)|]; reflexivity.
    + intros stat [= -> ->]. rewrite Z.eqb_refl.
      now destruct (stat =? 1).
  - unfold ncr_pk_cipher_verify, ctx_rsa, ctx_dsa.
    destruct (ctx_algorithm ctx) as [|e|a]; simpl;
      try (split; [tauto | discriminate]).
    destruct (algo a =? NCR_ALG_RSA).
    + destruct (algo_is_null (ctx_sign_hash ctx)); simpl.
      { split; [tauto|]. intros ret err' [= <- <-]. apply M. simpl. auto. }
      destruct (ctx_key ctx) as [key|]; simpl;
        [|split; [tauto | discriminate]].
      match goal with
      | |- context [calls h (let (_, _) := h ?c in _)] =>
          destruct (h c) as [cret st] eqn:Q
      end.
      split.
      * intros c stat [E|F] R.
        -- subst c. simpl in R. rewrite Q in R. injection R as -> ->.
           rewrite Z.eqb_refl. now destruct (stat =? 1).
        -- destruct (cret =? CRYPT_OK), (st =? 1); destruct F.
      * intros ret err'.
        destruct (cret =? CRYPT_OK); [destruct (st =? 1)|];
          simpl; intros [= <- <-]; apply M; solve [apply T | simpl; auto].
    + destruct (algo a =? NCR_ALG_DSA); simpl.
      * destruct (ctx_key ctx) as [key|]; simpl;
          [|split; [tauto | discriminate]].
        match goal with
        | |- context [calls h (let (_, _) := h ?c in _)] =>
            destruct (h c) as [cret st] eqn:Q
        end.
        split.
        -- intros c stat [E|F] R.
           ++ subst c. simpl in R. rewrite Q in R. injection R as -> ->.
              rewrite Z.eqb_refl. now destruct (stat =? 1).
           ++ destruct (cret =? CRYPT_OK), (st =? 1); destruct F.
        -- intros ret err'.
           destruct (cret =? CRYPT_OK); [destruct (st =? 1)|];
             simpl; intros [= <- <-]; apply M; solve [apply T | simpl; auto].
      * split; [tauto|]. intros ret err' [= <- <-]. apply M. simpl. auto.
Qed.

(** ** Key generation *)

Lemma keygen_handler_rsa_e (h : oracle) (r : Z) (a : algo_ptr)
    (private public : key_item_st) (p : ncr_key_generate_params_st) :
  let st e := {| st_ret := r; st_algo := a; st_private := private;
                 st_public := public; st_params := set_gen_rsa_e p e |} in
  same_keys_opt (run h (keygen_handler (st 0)))
                (run h (keygen_handler (st 65537))) /\
  calls h (keygen_handler (st 0)) = calls h (keygen_handler (st 65537)).
Proof.
  unfold keygen_handler, same_keys_opt, same_keys. simpl.
  destruct a as [|e|a]; simpl; auto.
  destruct (algo a =? NCR_ALG_RSA); simpl.
  - destruct (h (RsaMakeKey (gen_rsa_bits p / 8) 65537)) as [cret made].
    destruct (cret =? CRYPT_OK); simpl; auto.
  - destruct (algo a =? NCR_ALG_DSA); simpl; auto.
    destruct (gen_dsa_q_bits p =? 0); simpl;
      destruct (gen_dsa_p_bits p =? 0); simpl;
      match goal with
      | |- context [h ?c] => destruct (h c) as [cret made]
      end;
      destruct (cret =? CRYPT_OK); simpl; auto.
Qed.

Lemma keygen_handler_dsa_bits (h : oracle) (r : Z) (a : algo_ptr)
    (private public : key_item_st) (p : ncr_key_generate_params_st) :
  let st q b := {| st_ret := r; st_algo := a; st_private := private;
                   st_public := public;
                   st_params := set_gen_dsa_p_bits (set_gen_dsa_q_bits p q) b |} in
  same_keys_opt (run h (keygen_handler (st 0 0)))
                (run h (keygen_handler (st 160 1024))) /\
  calls h (keygen_handler (st 0 0)) = calls h (keygen_handler (st 160 1024)).
Proof.
  unfold keygen_handler, same_keys_opt, same_keys. simpl.
  destruct a as [|e|a]; simpl; auto.
  destruct (algo a =? NCR_ALG_RSA); simpl.
  - match goal with
    | |- context [h ?c] => destruct (h c) as [cret made]
    end.
    destruct (cret =? CRYPT_OK); simpl; auto.
  - destruct (algo a =? NCR_ALG_DSA); simpl; auto.
    destruct (h (DsaMakeKey (160 / 8) (1024 / 8))) as [cret made].
    destruct (cret =? CRYPT_OK); simpl; auto.
Qed.

Lemma generate_finish_same_keys (h : oracle) (st st' : keygen_st) :
  same_keys st st' ->
  generated (run h (generate_finish st)) = generated (run h (generate_finish st')) /\
  calls h (generate_finish st) = calls h (generate_finish st').
Proof.
  intros (Er & _ & Ep & Eq). unfold generate_finish.
  rewrite Er, Ep, Eq.
  destruct (st_ret st' <? 0); [simpl; auto|].
  rewrite !run_bind, !calls_bind.
  destruct (run h (ncr_pk_make_public_and_id (st_private st') (st_public st')))
    as [[[ret private] public]|]; [|auto].
  destruct (ret <? 0); simpl; auto.
Qed.

Lemma generate_same_keys (h : oracle) (algo : algo_ptr)
    (params params' : ncr_key_generate_params_st) (private public : key_item_st) :
  (forall r a pr pu,
      let st q := {| st_ret := r; st_algo := a; st_private := pr;
                     st_public := pu; st_params := q |} in
      same_keys_opt (run h (keygen_handler (st params)))
                    (run h (keygen_handler (st params'))) /\
      calls h (keygen_handler (st params)) = calls h (keygen_handler (st params'))) ->
  generated (run h (ncr_pk_generate algo params private public)) =
  generated (run h (ncr_pk_generate algo params' private public)) /\
  calls h (ncr_pk_generate algo params private public) =
  calls h (ncr_pk_generate algo params' private public).
Proof.
  intros K. unfold ncr_pk_generate. cbn [bind invoke run calls].
  destruct (h QueueWork <? 0); [simpl; auto|].
  rewrite !run_bind, !calls_bind.
  match goal with
  | |- context [keygen_handler ?s] =>
      destruct (K (st_ret s) (st_algo s) (st_private s) (st_public s)) as [S C]
  end.
  simpl in S, C. rewrite C. clear C.
  unfold same_keys_opt in S.
  do 2 match type of S with
       | context [run h ?m] => destruct (run h m) as [?st|]
       end; try contradiction; [|auto].
  destruct (generate_finish_same_keys h S) as [G C].
  now rewrite G, C.
Qed.

(** C7.  A generation with RSA exponent [0] and the same generation with
    exponent [65537] make the same calls and hand back the same return value
    and key items; so do a generation with DSA sizes [0] and [0] and the same
    generation with sizes [160] and [1024]. *)
Theorem generate_defaults (h : oracle) (algo : algo_ptr)
    (params : ncr_key_generate_params_st) (private public : key_item_st) :
  let rsa0 := ncr_pk_generate algo (set_gen_rsa_e params 0) private public in
  let rsa1 := ncr_pk_generate algo (set_gen_rsa_e params 65537) private public in
  let dsa0 :=
    ncr_pk_generate algo
      (set_gen_dsa_p_bits (set_gen_dsa_q_bits params 0) 0) private public in
  let dsa1 :=
    ncr_pk_generate algo
      (set_gen_dsa_p_bits (set_gen_dsa_q_bits params 160) 1024) private public in
  (generated (run h rsa0) = generated (run h rsa1) /\
   calls h rsa0 = calls h rsa1) /\
  (generated (run h dsa0) = generated (run h dsa1) /\
   calls h dsa0 = calls h dsa1).
Proof.
  split; apply generate_same_keys; intros r a pr pu.
  - apply keygen_handler_rsa_e.
  - apply keygen_handler_dsa_bits.
Qed.

Lemma make_key_id_total (h : oracle) (tmp : list byte) (max_size : Z)
    (private public : key_item_st) :
  exists r, run h (make_key_id tmp max_size private public) = Some r.
Proof.
  unfold make_key_id, leave. simpl.
  match goal with
  | |- context [let (_, _) := h ?c in _] => destruct (h c) as [[cret out] n]
  end.
  destruct (cret =? CRYPT_OK); simpl; eauto.
Qed.

Lemma make_public_and_id_total (h : oracle) (private public : key_item_st)
    (a : algo_properties_st) :
  key_algorithm private = Ptr a ->
  exists r, run h (ncr_pk_make_public_and_id private public) = Some r.
Proof.
  intros E. unfold ncr_pk_make_public_and_id. cbn [bind invoke run].
  destruct (h (Kmalloc KEY_DATA_MAX_SIZE)) as [tmp|]; [|simpl; eauto].
  rewrite E. cbn [algo_of bind].
  destruct (algo a =? NCR_ALG_RSA); [|destruct (algo a =? NCR_ALG_DSA)];
    cbn [bind invoke run]; [| |unfold leave; simpl; eauto].
  - match goal with
    | |- context [let (_, _) := h ?c in _] => destruct (h c) as [[cret out] n]
    end.
    destruct (cret =? CRYPT_OK); cbn [bind invoke run];
      [|unfold leave; simpl; eauto].
    match goal with
    | |- context [let (_, _) := h ?c in _] => destruct (h c) as [cret' imported]
    end.
    destruct (cret' =? CRYPT_OK); [apply make_key_id_total|].
    unfold leave; simpl; eauto.
  - match goal with
    | |- context [let (_, _) := h ?c in _] => destruct (h c) as [[cret out] n]
    end.
    destruct (cret =? CRYPT_OK); cbn [bind invoke run];
      [|unfold leave; simpl; eauto].
    match goal with
    | |- context [let (_, _) := h ?c in _] => destruct (h c) as [cret' imported]
    end.
    destruct (cret' =? CRYPT_OK); [apply make_key_id_total|].
    unfold leave; simpl; eauto.
Qed.

Lemma keygen_handler_dsa (h : oracle) (st : keygen_st) (a : algo_properties_st) :
  NCR_ALG_RSA <> NCR_ALG_DSA ->
  st_algo st = Ptr a ->
  algo a = NCR_ALG_DSA ->
  exists st',
    run h (keygen_handler st) = Some st' /\
    st_params st' = dsa_defaults (st_params st) /\
    key_algorithm (st_private st') = key_algorithm (st_private st).
Proof.
  intros D Ea Ed. unfold keygen_handler. rewrite Ea. cbn [algo_of bind].
  replace (algo a =? NCR_ALG_RSA) with false
    by (symmetry; apply Z.eqb_neq; congruence).
  rewrite Ed, Z.eqb_refl. unfold dsa_defaults.
  destruct st as [r al pr pu [ga rb re q b]]. simpl.
  destruct (q =? 0); simpl; destruct (b =? 0); simpl;
    match goal with
    | |- context [let (_, _) := h ?c in _] => destruct (h c) as [cret made]
    end;
    destruct (cret =? CRYPT_OK); simpl; eauto.
Qed.

(** C10.  When the algorithm is DSA, the work item stores [160] into a zero
    [q_bits] and [1024] into a zero [p_bits] of the caller's request and
    writes no other field of it; once the work is queued, [ncr_pk_generate]
    hands the request back in that state. *)
Theorem dsa_defaults_written_back (h : oracle) (algorithm : algo_ptr)
    (a : algo_properties_st) (params : ncr_key_generate_params_st)
    (private public : key_item_st) :
  NCR_ALG_RSA <> NCR_ALG_DSA ->
  algorithm = Ptr a ->
  algo a = NCR_ALG_DSA ->
  (forall st, st_algo st = algorithm ->
     exists st', run h (keygen_handler st) = Some st' /\
                 st_params st' = dsa_defaults (st_params st)) /\
  (0 <= h QueueWork ->
   exists ret private' public',
     run h (ncr_pk_generate algorithm params private public)
       = Some (ret, dsa_defaults params, private', public')).
Proof.
  intros D Ea Ed. split.
  - intros st Es. rewrite Ea in Es.
    destruct (keygen_handler_dsa h st D Es Ed) as (st' & R & P & _). eauto.
  - intros Q. unfold ncr_pk_generate. cbn [bind invoke run].
    replace (h QueueWork <? 0) with false by (symmetry; apply Z.ltb_ge; lia).
    rewrite run_bind.
    match goal with
    | |- context [keygen_handler ?s] =>
        destruct (@keygen_handler_dsa h s a D Ea Ed) as (st' & R & P & K)
    end.
    rewrite R. simpl in P, K. unfold generate_finish. rewrite P.
    destruct (st_ret st' <? 0); [simpl; eauto|].
    rewrite run_bind. subst algorithm.
    destruct (@make_public_and_id_total h (st_private st') (st_public st') a K)
      as ([[ret pr] pu] & M).
    rewrite M. destruct (ret <? 0); simpl; eauto.
Qed.

(** ** Key serialisation *)

(** C9 (as amended).  [ncr_pk_pack] reads [*packed_size] before it tests
    [packed_size], so a call with a null [packed_size] is undefined and never
    reaches the [-EINVAL] branch; the test of [packed_size] in the guard is
    redundant, the function being the one with [packed == NULL] as its whole
    guard; and a call with a non-null [packed_size] on a key whose algorithm
    is set returns. *)
Theorem pack_size_guard :
  (forall key packed, ncr_pk_pack key packed None = Undefined) /\
  (forall key packed packed_size,
      ncr_pk_pack key packed packed_size =
      ncr_pk_pack_guarding_packed_only key packed packed_size) /\
  (forall (h : oracle) key a packed size,
      key_algorithm key = Ptr a ->
      exists r, run h (ncr_pk_pack key packed (Some size)) = Some r).
Proof.
  split; [reflexivity|]. split.
  - intros key packed [size|]; [|reflexivity].
    unfold ncr_pk_pack, ncr_pk_pack_guarding_packed_only. simpl.
    now rewrite orb_false_r.
  - intros h key a [buf|] size E; unfold ncr_pk_pack; simpl; [|eauto].
    unfold pack_export. rewrite E. simpl.
    destruct (algo a =? NCR_ALG_RSA); [|destruct (algo a =? NCR_ALG_DSA)];
      simpl; eauto;
      match goal with
      | |- context [let (_, _) := h ?c in _] => destruct (h c) as [[cret out] n]
      end;
      destruct (cret =? CRYPT_OK); simpl; eauto.
Qed.

(** C4.  Let the packed encoding of an RSA or DSA key require [n] bytes,
    [n] fitting the 32-bit size argument.  Packing into a buffer of a smaller
    capacity returns [-EOVERFLOW] and stores [n] in [*packed_size]; packing
    again with capacity [n] returns [0]. *)
Theorem pack_overflow_then_retry (h : oracle) (key : key_item_st) (n : Z)
    (buf : list byte) (cap : Z) :
  CRYPT_BUFFER_OVERFLOW <> CRYPT_OK ->
  encoding_requires h key n ->
  n < 2 ^ 32 ->
  0 <= cap < n ->
  (exists packed',
      run h (ncr_pk_pack key (Some buf) (Some cap))
        = Some (- EOVERFLOW, Some packed', Some n)) /\
  (forall buf', exists packed',
      run h (ncr_pk_pack key (Some buf') (Some n))
        = Some (0, Some packed', Some n)).
Proof.
  intros D R Hn Hc.
  assert (U : uint32 n = n) by (apply uint32_small; lia).
  assert (F : (CRYPT_BUFFER_OVERFLOW =? CRYPT_OK) = false)
    by now apply Z.eqb_neq.
  destruct (R cap (proj1 Hc)) as [Small _].
  destruct (R n ltac:(lia)) as [_ Exact].
  destruct (Small (proj2 Hc)) as [out1 E1].
  destruct (Exact (Z.le_refl n)) as [out2 E2].
  unfold key_export in E1, E2.
  unfold ncr_pk_pack, pack_export. simpl.
  destruct (key_algorithm key) as [|e|a]; try discriminate. simpl.
  destruct (algo a =? NCR_ALG_RSA); [|destruct (algo a =? NCR_ALG_DSA)];
    try discriminate; simpl;
    injection E1 as E1; injection E2 as E2; rewrite E1, E2;
    rewrite F, Z.eqb_refl, tomerr_overflow, U; simpl; eauto.
Qed.




(** ** Key identifier *)

Lemma keygen_handler_frame (h : oracle) (st st' : keygen_st) :
  run h (keygen_handler st) = Some st' ->
  st_public st' = st_public st /\
  key_algorithm (st_private st') = key_algorithm (st_private st).
Proof.
  unfold keygen_handler.
  destruct (st_algo st) as [|e|a]; simpl; try discriminate.
  destruct (algo a =? NCR_ALG_RSA); [|destruct (algo a =? NCR_ALG_DSA)]; simpl.
  - destruct (h (RsaMakeKey _ _)) as [cret made].
    destruct (cret =? CRYPT_OK); simpl; intros [= <-]; auto.
  - destruct (gen_dsa_q_bits (st_params st) =? 0); simpl;
      destruct (gen_dsa_p_bits (st_params st) =? 0); simpl;
      destruct (h (DsaMakeKey _ _)) as [cret made];
      destruct (cret =? CRYPT_OK); simpl; intros [= <-]; auto.
  - intros [= <-]; auto.
Qed.

Lemma make_key_id_success (h : oracle) (tmp : list byte) (max_size : Z)
    (private public : key_item_st) (ret : Z) (private' public' : key_item_st) :
  errno_positive ->
  hash_sized h ->
  run h (make_key_id tmp max_size private public) = Some (ret, private', public') ->
  ~ ret < 0 ->
  h (HashMemory (h (AlgoToProperties NCR_ALG_SHA1)) (region tmp max_size)
       MAX_KEY_ID_SIZE)
    = (CRYPT_OK, key_identifier private', key_id_size private') /\
  key_id_size private' = key_id_size public' /\
  key_identifier private' = key_identifier public' /\
  key_id_size private' <= MAX_KEY_ID_SIZE /\
  key_algorithm public' = key_algorithm public /\
  key_pk_rsa public' = key_pk_rsa public /\
  key_pk_dsa public' = key_pk_dsa public.
Proof.
  intros P S. unfold make_key_id, leave. simpl.
  pose proof (S (h (AlgoToProperties NCR_ALG_SHA1)) (region tmp max_size)
                MAX_KEY_ID_SIZE) as F.
  destruct (h (HashMemory _ _ _)) as [[cret out] n].
  destruct (cret =? CRYPT_OK) eqn:Ec; simpl; intros [= <- <- <-] N.
  - apply Z.eqb_eq in Ec. subst cret. destruct (F eq_refl) as [Fn Fc].
    unfold key_identifier. simpl.
    rewrite (region_store (key_id private) out Fn).
    rewrite (region_store (key_id public) out Fn).
    repeat split; auto.
  - pose proof (tomerr_negative cret P). contradiction.
Qed.

(** A successful [ncr_pk_make_public_and_id]: the bytes [exported] of the
    public export of the private key were imported into the public item and
    hashed into both identifiers. *)
Lemma make_public_and_id_success (h : oracle) (private public : key_item_st)
    (ret : Z) (private' public' : key_item_st) :
  errno_positive ->
  hash_sized h ->
  export_sized h ->
  run h (ncr_pk_make_public_and_id private public) = Some (ret, private', public') ->
  ~ ret < 0 ->
  exists a exported,
    key_algorithm private = Ptr a /\
    key_algorithm public' = key_algorithm public /\
    ((algo a =? NCR_ALG_RSA) = true /\
     (exists cap n,
         h (RsaExport cap PK_PUBLIC (key_pk_rsa private)) = (CRYPT_OK, exported, n)) /\
     h (RsaImport exported) = (CRYPT_OK, key_pk_rsa public')
     \/
     (algo a =? NCR_ALG_RSA) = false /\ (algo a =? NCR_ALG_DSA) = true /\
     (exists cap n,
         h (DsaExport cap PK_PUBLIC (key_pk_dsa private)) = (CRYPT_OK, exported, n)) /\
     h (DsaImport exported) = (CRYPT_OK, key_pk_dsa public')) /\
    h (HashMemory (h (AlgoToProperties NCR_ALG_SHA1)) exported MAX_KEY_ID_SIZE)
      = (CRYPT_OK, key_identifier private', key_id_size private') /\
    key_id_size private' = key_id_size public' /\
    key_identifier private' = key_identifier public' /\
    key_id_size private' <= MAX_KEY_ID_SIZE.
Proof.
  intros P S [Xr Xd].
  assert (Pe : - EINVAL < 0) by (destruct P as (? & ? & ?); lia).
  assert (Pm : - ENOMEM < 0) by (destruct P as (? & ? & ?); lia).
  unfold ncr_pk_make_public_and_id. cbn [bind invoke run].
  destruct (h (Kmalloc KEY_DATA_MAX_SIZE)) as [tmp|];
    [|simpl; intros [= <- <- <-] N; contradiction].
  destruct (key_algorithm private) as [|e|a]; cbn [algo_of bind run];
    try discriminate.
  destruct (algo a =? NCR_ALG_RSA) eqn:Er;
    [|destruct (algo a =? NCR_ALG_DSA) eqn:Ed]; cbn [bind invoke run].
  - pose proof (Xr KEY_DATA_MAX_SIZE PK_PUBLIC (key_pk_rsa private)) as F.
    destruct (h (RsaExport _ _ _)) as [[cret out] n] eqn:Q.
    destruct (cret =? CRYPT_OK) eqn:Ec; cbn [bind invoke run];
      [|unfold leave; simpl; intros [= <- <- <-] N;
        pose proof (tomerr_negative cret P); contradiction].
    apply Z.eqb_eq in Ec. subst cret. destruct (F eq_refl) as [Fn Fc].
    rewrite (region_store tmp out Fn).
    destruct (h (RsaImport out)) as [cret imported] eqn:Qi.
    destruct (cret =? CRYPT_OK) eqn:Ec;
      [|unfold leave; simpl; intros [= <- <- <-] N;
        pose proof (tomerr_negative cret P); contradiction].
    apply Z.eqb_eq in Ec. subst cret.
    intros R N.
    destruct (make_key_id_success _ _ _ _ P S R N)
      as (Hh & Hs & Hi & Hm & Ha & Hr & Hd).
    rewrite (region_store tmp out Fn) in Hh. simpl in Ha, Hr.
    exists a, out. rewrite Hr. repeat split; auto.
    left. repeat split; eauto.
  - pose proof (Xd KEY_DATA_MAX_SIZE PK_PUBLIC (key_pk_dsa private)) as F.
    destruct (h (DsaExport _ _ _)) as [[cret out] n] eqn:Q.
    destruct (cret =? CRYPT_OK) eqn:Ec; cbn [bind invoke run];
      [|unfold leave; simpl; intros [= <- <- <-] N;
        pose proof (tomerr_negative cret P); contradiction].
    apply Z.eqb_eq in Ec. subst cret. destruct (F eq_refl) as [Fn Fc].
    rewrite (region_store tmp out Fn).
    destruct (h (DsaImport out)) as [cret imported] eqn:Qi.
    destruct (cret =? CRYPT_OK) eqn:Ec;
      [|unfold leave; simpl; intros [= <- <- <-] N;
        pose proof (tomerr_negative cret P); contradiction].
    apply Z.eqb_eq in Ec. subst cret.
    intros R N.
    destruct (make_key_id_success _ _ _ _ P S R N)
      as (Hh & Hs & Hi & Hm & Ha & Hr & Hd).
    rewrite (region_store tmp out Fn) in Hh. simpl in Ha, Hd.
    exists a, out. rewrite Hd. repeat split; auto.
    right. repeat split; eauto.
  - unfold leave; simpl; intros [= <- <- <-] N. contradiction.
Qed.

(** C1.  After [ncr_pk_generate] has returned [0], the private and the
    public item have the same identifier length, at most [MAX_KEY_ID_SIZE],
    and the same identifier; that identifier is the SHA-1 digest of the
    exported bytes the public key was imported from, and of the bytes any
    successful [ncr_pk_pack] of the public item produces.  The library is
    assumed to report its output sizes faithfully and to have a canonical
    public encoding. *)
Theorem generate_key_id (h : oracle) (algo : algo_ptr)
    (params params' : ncr_key_generate_params_st)
    (private public private' public' : key_item_st) :
  errno_positive ->
  hash_sized h ->
  export_sized h ->
  public_export_canonical h ->
  run h (ncr_pk_generate algo params private public)
    = Some (0, params', private', public') ->
  key_id_size private' = key_id_size public' /\
  key_id_size private' <= MAX_KEY_ID_SIZE /\
  key_identifier private' = key_identifier public' /\
  (exists exported,
      (h (RsaImport exported) = (CRYPT_OK, key_pk_rsa public') \/
       h (DsaImport exported) = (CRYPT_OK, key_pk_dsa public')) /\
      h (HashMemory (h (AlgoToProperties NCR_ALG_SHA1)) exported MAX_KEY_ID_SIZE)
        = (CRYPT_OK, key_identifier private', key_id_size private')) /\
  forall buf cap packed' n,
    0 <= cap < 2 ^ 32 ->
    run h (ncr_pk_pack public' (Some buf) (Some cap))
      = Some (0, Some packed', Some n) ->
    h (HashMemory (h (AlgoToProperties NCR_ALG_SHA1)) (region packed' n)
         MAX_KEY_ID_SIZE)
      = (CRYPT_OK, key_identifier private', key_id_size private').
Proof.
  intros P S X [Cr Cd].
  assert (Pe : - EINVAL <> 0) by (destruct P as (? & ? & ?); lia).
  assert (Pt : forall cret, tomerr cret <> 0)
    by (intros cret; pose proof (tomerr_negative cret P); lia).
  unfold ncr_pk_generate. cbn [bind invoke run].
  destruct (h QueueWork <? 0) eqn:Q.
  { apply Z.ltb_lt in Q. simpl. intros [= E]. lia. }
  rewrite run_bind.
  match goal with
  | |- context [keygen_handler ?s] =>
      destruct (run h (keygen_handler s)) as [st|] eqn:K; [|discriminate]
  end.
  destruct (keygen_handler_frame _ _ K) as [Kp Ka]. simpl in Kp, Ka.
  unfold generate_finish.
  destruct (st_ret st <? 0) eqn:R.
  { apply Z.ltb_lt in R. simpl. intros [= E]. lia. }
  rewrite run_bind.
  destruct (run h (ncr_pk_make_public_and_id (st_private st) (st_public st)))
    as [[[ret pr] pu]|] eqn:M; [|discriminate].
  destruct (ret <? 0) eqn:N; simpl.
  { apply Z.ltb_lt in N. intros [= E]. lia. }
  intros [= <- -> ->]. apply Z.ltb_ge in N.
  destruct (make_public_and_id_success _ _ P S X M ltac:(lia))
    as (a & exported & Ea & Eu & Family & Hh & Hs & Hi & Hm).
  split; [exact Hs|]. split; [exact Hm|]. split; [exact Hi|]. split.
  { exists exported. split; [|exact Hh].
    destruct Family as [(_ & _ & Qi)|(_ & _ & _ & Qi)]; auto. }
  intros buf cap packed' n Hc.
  rewrite Kp in Eu. simpl in Eu. rewrite Ka in Ea.
  unfold ncr_pk_pack, pack_export. simpl. rewrite Eu, Ea. simpl.
  destruct X as [Xr Xd].
  destruct Family as [(Er & (c0 & n0 & Qe) & Qi)|(Er & Ed & (c0 & n0 & Qe) & Qi)];
    rewrite Er; [|rewrite Ed]; simpl.
  - pose proof (Xr cap (rsa_key_type (key_pk_rsa public')) (key_pk_rsa public')) as F.
    destruct (h (RsaExport cap _ _)) as [[cret out] m] eqn:Qp.
    destruct (cret =? CRYPT_OK) eqn:Ec; simpl;
      [|intros [= T]; now apply Pt in T].
    apply Z.eqb_eq in Ec. subst cret. destruct (F eq_refl) as [Fn Fc].
    intros [= <- <-]. rewrite uint32_small by lia.
    rewrite (region_store buf out Fn).
    now rewrite (Cr _ _ _ _ _ _ _ _ Qe Qi Qp).
  - pose proof (Xd cap (dsa_key_type (key_pk_dsa public')) (key_pk_dsa public')) as F.
    destruct (h (DsaExport cap _ _)) as [[cret out] m] eqn:Qp.
    destruct (cret =? CRYPT_OK) eqn:Ec; simpl;
      [|intros [= T]; now apply Pt in T].
    apply Z.eqb_eq in Ec. subst cret. destruct (F eq_refl) as [Fn Fc].
    intros [= <- <-]. rewrite uint32_small by lia.
    rewrite (region_store buf out Fn).
    now rewrite (Cd _ _ _ _ _ _ _ _ Qe Qi Qp).
Qed.

End Properties.

(** * The sample platform meets the assumptions *)

Lemma sample_errno_positive : @errno_positive sample_headers.
Proof. unfold errno_positive. simpl. lia. Qed.

Lemma sample_output_fits (cap : Z) (bytes : list byte) :
  @fits sample_headers cap (sample_output cap bytes).
Proof.
  unfold sample_output, fits.
  destruct (Z.ltb_spec cap (Z.of_nat (length bytes))); simpl.
  - discriminate.
  - intros _. split; [reflexivity | assumption].
Qed.

Lemma sample_output_ok (cap : Z) (bytes out : list byte) (n : Z) :
  sample_output cap bytes = (0, out, n) ->
  out = bytes /\ n = Z.of_nat (length bytes).
Proof.
  unfold sample_output.
  destruct (cap <? Z.of_nat (length bytes)); intros [= <- <-]; auto.
Qed.

Lemma sample_hash_sized : @hash_sized sample_headers sample_oracle.
Proof. intros hash data cap. apply sample_output_fits. Qed.

Lemma sample_export_sized : @export_sized sample_headers sample_oracle.
Proof. split; intros cap type k; apply sample_output_fits. Qed.

Lemma sample_public_export_canonical :
  @public_export_canonical sample_headers sample_oracle.
Proof.
  split; intros cap k out n k' cap' out' n'; simpl;
    intros E I E'; apply sample_output_ok in E as [-> _];
    simpl in I; injection I as <-; simpl in E';
    apply sample_output_ok in E' as [-> _]; reflexivity.
Qed.


Lemma sample_private_encoding :
  @encoding_requires sample_headers sample_oracle sample_private 3.
Proof.
  intros cap Hc. unfold key_export. simpl. unfold sample_output. simpl.
  destruct (Z.ltb_spec cap 3); split; intros L; try lia; eauto.
Qed.

(** * The properties on the sample platform *)

(** The key pair of the sample RSA generation carries the digest of the
    packed public key as the identifier of both items. *)
Lemma generate_key_id_witness :
  sample_generation sample_rsa
    = Some (0, sample_request, sample_private, sample_public) /\
  @key_id_size sample_headers sample_private = 2 /\
  @key_identifier sample_headers sample_private
    = @key_identifier sample_headers sample_public /\
  sample_oracle (HashMemory (sample_oracle (AlgoToProperties 40))
                   [x00; x2a; x17] 20)
    = (0, @key_identifier sample_headers sample_private, 2).
Proof.
  assert (G : sample_generation sample_rsa
              = Some (0, sample_request, sample_private, sample_public))
    by reflexivity.
  destruct (@generate_key_id sample_headers sample_oracle sample_rsa
              sample_request sample_request sample_empty_key sample_empty_key
              sample_private sample_public
              sample_errno_positive sample_hash_sized sample_export_sized
              sample_public_export_canonical G)
    as (Size & Bound & Same & _ & Digest).
  split; [exact G|]. split; [reflexivity|]. split; [exact Same|].
  apply (Digest (repeat x00 8) 8 [x00; x2a; x17; x00; x00; x00; x00; x00] 3).
  - lia.
  - reflexivity.
Defined.

(** On the sample RSA and DSA contexts: a signature that does not match is
    reported through [*err] with return value [0], and one that matches sets
    [*err] to [0]. *)
Lemma verify_outcome_witness :
  (@run sample_headers _ sample_oracle
     (@ncr_pk_cipher_verify sample_headers (sample_ctx sample_rsa)
        [x01; x02] 2 [x5a; x03] 2 7)
     = Some (0, -2) /\
   @run sample_headers _ sample_oracle
     (@ncr_pk_cipher_verify sample_headers (sample_ctx sample_rsa)
        [x2a; x17; x5a; x03] 4 [x5a; x03] 2 7)
     = Some (0, 0)) /\
  (@run sample_headers _ sample_oracle
     (@ncr_pk_cipher_verify sample_headers (sample_ctx sample_dsa)
        [x01; x02] 2 [x5a; x03] 2 7)
     = Some (0, -2) /\
   @run sample_headers _ sample_oracle
     (@ncr_pk_cipher_verify sample_headers (sample_ctx sample_dsa)
        [x5a; x03] 2 [x5a; x03] 2 7)
     = Some (0, 0)).
Proof.
  assert (N : ~ In (@NCR_VERIFICATION_FAILED sample_headers)
                [0; - @EOVERFLOW sample_headers; - @ENOMEM sample_headers;
                 - @EINVAL sample_headers]).
  { simpl. intros [E|[E|[E|[E|[]]]]]; discriminate. }
  assert (D : @NCR_ALG_RSA sample_headers <> @NCR_ALG_DSA sample_headers).
  { simpl. discriminate. }
  split; split.
  - refine (proj2 (proj1 (@verify_outcome sample_headers sample_oracle
              (sample_ctx sample_rsa) [x01; x02] [x5a; x03] 2 2 7 N)
              {| algo := 101 |} sample_public eq_refl eq_refl eq_refl _) 0 eq_refl).
    simpl. discriminate.
  - refine (proj2 (proj1 (@verify_outcome sample_headers sample_oracle
              (sample_ctx sample_rsa) [x2a; x17; x5a; x03] [x5a; x03] 4 2 7 N)
              {| algo := 101 |} sample_public eq_refl eq_refl eq_refl _) 1 eq_refl).
    simpl. discriminate.
  - exact (proj2 (proj1 (proj2 (@verify_outcome sample_headers sample_oracle
              (sample_ctx sample_dsa) [x01; x02] [x5a; x03] 2 2 7 N))
              {| algo := 102 |} sample_public eq_refl eq_refl eq_refl D)
              0 eq_refl).
  - exact (proj2 (proj1 (proj2 (@verify_outcome sample_headers sample_oracle
              (sample_ctx sample_dsa) [x5a; x03] [x5a; x03] 2 2 7 N))
              {| algo := 102 |} sample_public eq_refl eq_refl eq_refl D)
              1 eq_refl).
Defined.

(** A ciphertext the sample library decrypts with an invalid padding. *)
Lemma decrypt_invalid_padding_witness :
  @run sample_headers _ sample_oracle
    (@ncr_pk_cipher_decrypt sample_headers (sample_ctx sample_rsa)
       [x01; x02; x03] 3 [x00; x00] 16)
    = Some (-22, [x03; x00], 16).
Proof.
  refine (@decrypt_invalid_padding sample_headers sample_oracle
            (sample_ctx sample_rsa) [x01; x02; x03] [x00; x00] 3 16
            [x01; x02; x03] 16 NullPtr 1 ((0, [x2a; x17]) : sample_key)
            [x03] 1 _ _).
  - simpl. left. reflexivity.
  - reflexivity.
Defined.

(** The sample private key packs to three bytes. *)
Lemma pack_overflow_then_retry_witness :
  (exists packed',
      @run sample_headers _ sample_oracle
        (@ncr_pk_pack sample_headers sample_private (Some [x00; x00; x00]) (Some 1))
        = Some (-75, Some packed', Some 3)) /\
  (forall buf', exists packed',
      @run sample_headers _ sample_oracle
        (@ncr_pk_pack sample_headers sample_private (Some buf') (Some 3))
        = Some (0, Some packed', Some 3)).
Proof.
  apply (@pack_overflow_then_retry sample_headers sample_oracle sample_private
           3 [x00; x00; x00] 1).
  - simpl. discriminate.
  - exact sample_private_encoding.
  - reflexivity.
  - lia.
Defined.

Lemma dsa_encrypt_decrypt_unsupported_witness :
  @ncr_pk_cipher_encrypt sample_headers (sample_ctx sample_dsa) [x01] 1 [x00] 1
    = Ret (-22, [x00], 1) /\
  @ncr_pk_cipher_decrypt sample_headers (sample_ctx sample_dsa) [x01] 1 [x00] 1
    = Ret (-22, [x00], 1).
Proof.
  destruct (@dsa_encrypt_decrypt_unsupported sample_headers
              (sample_ctx sample_dsa) {| algo := 102 |} [x01] [x00] 1 1)
    as (E & D & _).
  - simpl. discriminate.
  - reflexivity.
  - reflexivity.
  - split; [exact E | exact D].
Defined.

Lemma init_algorithm_mismatch_witness :
  @run sample_headers _ sample_oracle
    (@ncr_pk_cipher_init sample_headers sample_dsa (sample_ctx sample_rsa)
       sample_params sample_public)
    = Some (-22, @ctx_zero sample_headers).
Proof.
  refine (proj1 (@init_algorithm_mismatch sample_headers sample_oracle
                   sample_dsa (sample_ctx sample_rsa) sample_params
                   sample_public _)).
  simpl. discriminate.
Defined.


(** C9 (as stated) fails on a key item whose algorithm is not set: the call
    has a non-null [packed_size] and does not return. *)
Lemma pack_null_algorithm_undefined :
  ~ exists r,
      @run sample_headers _ sample_oracle
        (@ncr_pk_pack sample_headers sample_empty_key (Some [x00]) (Some 1))
        = Some r.
Proof. intros [r E]. discriminate E. Qed.

Lemma pack_size_guard_witness :
  exists r,
    @run sample_headers _ sample_oracle
      (@ncr_pk_pack sample_headers sample_private (Some [x00]) (Some 1))
      = Some r.
Proof.
  destruct (@pack_size_guard sample_headers) as (_ & _ & Total).
  apply (Total sample_oracle sample_private {| algo := 101 |} (Some [x00]) 1).
  reflexivity.
Defined.

Lemma dsa_defaults_written_back_witness :
  exists ret private' public',
    sample_generation sample_dsa
      = Some (ret,
              {| gen_algorithm := 101; gen_rsa_bits := 1024; gen_rsa_e := 0;
                 gen_dsa_q_bits := 160; gen_dsa_p_bits := 1024 |},
              private', public').
Proof.
  destruct (@dsa_defaults_written_back sample_headers sample_oracle sample_dsa
              {| algo := 102 |} sample_request sample_empty_key sample_empty_key)
    as (_ & G).
  - simpl. discriminate.
  - reflexivity.
  - reflexivity.
  - apply G. simpl. lia.
Defined.

(** * Further properties of the operations *)

Section Further.

Context `{Headers}.

(** Case analysis along one run: on the reply of the call about to be made,
    then on the test or value the program branches on. *)
Ltac branch h :=
  repeat (cbn [bind invoke run calls load algo_of];
          match goal with
          | |- context [load ?p] => destruct p
          | |- context [algo_of ?p] => destruct p
          | |- context [let (_, _) := h ?c in _] => destruct (h c)
          | |- context [match h ?c with _ => _ end] => destruct (h c)
          | |- context [let (_, _) := ?p in _] => destruct p
          | |- context [if ?b then _ else _] => destruct b
          | |- context [match ?x with _ => _ end] => destruct x
          end);
  cbn [bind invoke run calls load algo_of].

Lemma tomerr_mapped (cret : Z) : In (tomerr cret) mapped_codes.
Proof.
  unfold mapped_codes. simpl.
  destruct (tomerr_cases cret) as [E|[E|E]]; rewrite E; auto.
Qed.

Lemma zero_mapped : In 0 mapped_codes.
Proof. simpl. auto. Qed.

Lemma einval_mapped : In (- EINVAL) mapped_codes.
Proof. simpl. auto. Qed.

Lemma enomem_mapped : In (- ENOMEM) mapped_codes.
Proof. simpl. auto. Qed.

Ltac mapped :=
  first [ apply zero_mapped | apply einval_mapped | apply enomem_mapped
        | apply tomerr_mapped ].

(** X1.  No status of the numeric library reaches the caller: whatever the
    library answers, [ncr_pk_pack], [ncr_pk_unpack], the three cipher
    operations with an output buffer and [ncr_pk_make_public_and_id] return
    [0], [-EOVERFLOW], [-ENOMEM] or [-EINVAL]. *)
Theorem return_values_mapped (h : oracle) :
  (forall key packed size ret p s,
      run h (ncr_pk_pack key packed size) = Some (ret, p, s) ->
      In ret mapped_codes) /\
  (forall key packed size ret k,
      run h (ncr_pk_unpack key packed size) = Some (ret, k) ->
      In ret mapped_codes) /\
  (forall ctx input isz output osz ret o s,
      run h (ncr_pk_cipher_encrypt ctx input isz output osz) = Some (ret, o, s) ->
      In ret mapped_codes) /\
  (forall ctx input isz output osz ret o s,
      run h (ncr_pk_cipher_decrypt ctx input isz output osz) = Some (ret, o, s) ->
      In ret mapped_codes) /\
  (forall ctx input isz output osz ret o s,
      run h (ncr_pk_cipher_sign ctx input isz output osz) = Some (ret, o, s) ->
      In ret mapped_codes) /\
  (forall private public ret pr pu,
      run h (ncr_pk_make_public_and_id private public) = Some (ret, pr, pu) ->
      In ret mapped_codes).
Proof.
  repeat split.
  - intros key packed size ret p s.
    unfold ncr_pk_pack, pack_export. branch h;
      try discriminate; intros [= <- <- <-]; mapped.
  - intros key packed size ret k.
    unfold ncr_pk_unpack. branch h;
      try discriminate; intros [= <- <-]; mapped.
  - intros ctx input isz output osz ret o s.
    unfold ncr_pk_cipher_encrypt, ctx_rsa. branch h;
      try discriminate; intros [= <- <- <-]; mapped.
  - intros ctx input isz output osz ret o s.
    unfold ncr_pk_cipher_decrypt, ctx_rsa. branch h;
      try discriminate; intros [= <- <- <-]; mapped.
  - intros ctx input isz output osz ret o s.
    unfold ncr_pk_cipher_sign, ctx_rsa, ctx_dsa. branch h;
      try discriminate; intros [= <- <- <-]; mapped.
  - intros private public ret pr pu.
    unfold ncr_pk_make_public_and_id, make_key_id, leave. branch h;
      try discriminate; intros [= <- <- <-]; mapped.
Qed.

(** X2.  A cipher operation that does not return [0] leaves [*output_size]
    as it found it, and a verification that does not return [0] leaves
    [*err] as it found it. *)
Theorem failure_leaves_outputs (h : oracle) (ctx : ncr_pk_ctx)
    (input output hash : list byte) (isz osz hsz err : Z) :
  (forall ret o s,
      run h (ncr_pk_cipher_encrypt ctx input isz output osz) = Some (ret, o, s) ->
      ret <> 0 -> s = osz) /\
  (forall ret o s,
      run h (ncr_pk_cipher_decrypt ctx input isz output osz) = Some (ret, o, s) ->
      ret <> 0 -> s = osz) /\
  (forall ret o s,
      run h (ncr_pk_cipher_sign ctx input isz output osz) = Some (ret, o, s) ->
      ret <> 0 -> s = osz) /\
  (forall ret e,
      run h (ncr_pk_cipher_verify ctx input isz hash hsz err) = Some (ret, e) ->
      ret <> 0 -> e = err).
Proof.
  repeat split; intros ret o.
  - intros s. unfold ncr_pk_cipher_encrypt, ctx_rsa. branch h;
      try discriminate; intros [= <- <- <-] N; congruence.
  - intros s. unfold ncr_pk_cipher_decrypt, ctx_rsa. branch h;
      try discriminate; intros [= <- <- <-] N; congruence.
  - intros s. unfold ncr_pk_cipher_sign, ctx_rsa, ctx_dsa. branch h;
      try discriminate; intros [= <- <- <-] N; congruence.
  - unfold ncr_pk_cipher_verify, ctx_rsa, ctx_dsa. branch h;
      try discriminate; intros [= <- <-] N; congruence.
Qed.

(** X3.  On a context whose algorithm is neither RSA nor DSA each of the
    four operations is the bare return of [-EINVAL]: no primitive is called
    and the outputs are untouched. *)
Theorem cipher_unsupported_algorithm (ctx : ncr_pk_ctx) (a : algo_properties_st)
    (input output hash : list byte) (isz osz hsz err : Z) :
  ctx_algorithm ctx = Ptr a ->
  algo a <> NCR_ALG_RSA ->
  algo a <> NCR_ALG_DSA ->
  ncr_pk_cipher_encrypt ctx input isz output osz = Ret (- EINVAL, output, osz) /\
  ncr_pk_cipher_decrypt ctx input isz output osz = Ret (- EINVAL, output, osz) /\
  ncr_pk_cipher_sign ctx input isz output osz = Ret (- EINVAL, output, osz) /\
  ncr_pk_cipher_verify ctx input isz hash hsz err = Ret (- EINVAL, err).
Proof.
  intros Ea Nr Nd.
  apply Z.eqb_neq in Nr, Nd.
  unfold ncr_pk_cipher_encrypt, ncr_pk_cipher_decrypt, ncr_pk_cipher_sign,
    ncr_pk_cipher_verify.
  rewrite Ea. simpl. rewrite Nr, Nd. repeat split.
Qed.

(** X4.  On an RSA context without a signature hash, [ncr_pk_cipher_sign]
    and [ncr_pk_cipher_verify] return [-EINVAL] before any primitive is
    called, even when no key is bound. *)
Theorem rsa_without_sign_hash (ctx : ncr_pk_ctx) (a : algo_properties_st)
    (input output hash : list byte) (isz osz hsz err : Z) :
  ctx_algorithm ctx = Ptr a ->
  algo a = NCR_ALG_RSA ->
  ctx_sign_hash ctx = NullPtr ->
  ncr_pk_cipher_sign ctx input isz output osz = Ret (- EINVAL, output, osz) /\
  ncr_pk_cipher_verify ctx input isz hash hsz err = Ret (- EINVAL, err).
Proof.
  intros Ea Er Es.
  unfold ncr_pk_cipher_sign, ncr_pk_cipher_verify.
  rewrite Ea, Es. simpl. rewrite Er, Z.eqb_refl. split; reflexivity.
Qed.

(** X5.  On a DSA context signing and verifying use the key alone: two DSA
    contexts bound to the same key are the same program, whatever padding
    type, hashes and salt length they hold. *)
Theorem dsa_uses_key_alone (ctx ctx' : ncr_pk_ctx) (a a' : algo_properties_st)
    (input output hash : list byte) (isz osz hsz err : Z) :
  NCR_ALG_RSA <> NCR_ALG_DSA ->
  ctx_algorithm ctx = Ptr a -> algo a = NCR_ALG_DSA ->
  ctx_algorithm ctx' = Ptr a' -> algo a' = NCR_ALG_DSA ->
  ctx_key ctx' = ctx_key ctx ->
  ncr_pk_cipher_sign ctx' input isz output osz
    = ncr_pk_cipher_sign ctx input isz output osz /\
  ncr_pk_cipher_verify ctx' input isz hash hsz err
    = ncr_pk_cipher_verify ctx input isz hash hsz err.
Proof.
  intros D Ea Ed Ea' Ed' Ek.
  assert (R : (NCR_ALG_DSA =? NCR_ALG_RSA) = false)
    by (apply Z.eqb_neq; congruence).
  unfold ncr_pk_cipher_sign, ncr_pk_cipher_verify, ctx_dsa.
  rewrite Ea, Ea', Ek. simpl. rewrite Ed, Ed', R, Z.eqb_refl.
  split; reflexivity.
Qed.

(** X6.  When a run of [ncr_pk_cipher_sign] reaches the RSA or DSA signing
    primitive, the reply of the primitive decides the result: on [CRYPT_OK]
    the function returns [0] and [*output_size] is the produced length,
    otherwise it returns the mapped error and [*output_size] is unchanged. *)
Theorem sign_outcome (h : oracle) (ctx : ncr_pk_ctx) (input output : list byte)
    (isz osz : Z) (c : call) (cret : Z) (out : list byte) (n : Z) :
  In c (calls h (ncr_pk_cipher_sign ctx input isz output osz)) ->
  sign_reply h c = Some (cret, out, n) ->
  run h (ncr_pk_cipher_sign ctx input isz output osz)
    = Some (if cret =? CRYPT_OK then (0, store output out, n)
            else (tomerr cret, store output out, osz)).
Proof.
  unfold ncr_pk_cipher_sign, ctx_rsa, ctx_dsa.
  destruct (ctx_algorithm ctx) as [|e|a]; simpl; try tauto.
  destruct (algo a =? NCR_ALG_RSA).
  - destruct (algo_is_null (ctx_sign_hash ctx)); simpl; [tauto|].
    destruct (ctx_key ctx) as [key|]; simpl; [|tauto].
    match goal with
    | |- (?c0 = _ \/ _) -> _ =>
        destruct (h c0) as [[cret0 out0] n0] eqn:Q; intros [E|F] R
    end.
    + subst c. simpl in R. rewrite Q in R. injection R as -> -> ->.
      now destruct (cret =? CRYPT_OK).
    + destruct (cret0 =? CRYPT_OK); destruct F.
  - destruct (algo a =? NCR_ALG_DSA); simpl; [|tauto].
    destruct (ctx_key ctx) as [key|]; simpl; [|tauto].
    match goal with
    | |- (?c0 = _ \/ _) -> _ =>
        destruct (h c0) as [[cret0 out0] n0] eqn:Q; intros [E|F] R
    end.
    + subst c. simpl in R. rewrite Q in R. injection R as -> -> ->.
      now destruct (cret =? CRYPT_OK).
    + destruct (cret0 =? CRYPT_OK); destruct F.
Qed.

(** ** Context life cycle *)

(** X7.  Whatever path [ncr_pk_cipher_init] takes, it leaves the [init] flag
    at [1] or at [0].  At [1] the call returned [0] and the context is bound
    to the requested algorithm and to the key, whose algorithm is the
    requested one; at [0] the call returned [-EINVAL] or the errno carried by
    the signature-hash pointer. *)
Theorem init_flag_means_bound (h : oracle) (algorithm : algo_ptr)
    (ctx : ncr_pk_ctx) (params : ncr_key_params_st) (key : key_item_st)
    (ret : Z) (ctx' : ncr_pk_ctx) :
  run h (ncr_pk_cipher_init algorithm ctx params key) = Some (ret, ctx') ->
  (ctx_init ctx' = 1 /\ ret = 0 /\
   ctx_algorithm ctx' = algorithm /\ ctx_key ctx' = Some key /\
   key_algorithm key = algorithm /\ IS_ERR (ctx_sign_hash ctx') = false)
  \/
  (ctx_init ctx' = 0 /\
   (ret = - EINVAL \/
    IS_ERR (ctx_sign_hash ctx') = true /\ ret = PTR_ERR (ctx_sign_hash ctx'))).
Proof.
  unfold ncr_pk_cipher_init, ncr_key_params_get_sign_hash.
  destruct (algo_ptr_eqb (key_algorithm key) algorithm) eqn:E; simpl.
  - apply algo_ptr_eqb_eq in E. revert E.
    destruct algorithm as [|e|a]; simpl; try discriminate.
    repeat (simpl;
            match goal with
            | |- context [IS_ERR (h ?c)] => destruct (h c)
            | |- context [algo_is_null (h ?c)] => destruct (h c)
            | |- context [if ?b then _ else _] => destruct b
            end);
      simpl; intros E [= <- <-]; simpl;
      solve [ left; repeat split; auto
            | right; split; auto ].
  - intros [= <- <-]. right. simpl. auto.
Qed.

(** X8.  RSA initialisation with a padding type other than OAEP always
    succeeds once the signature hash is resolved: PKCS#1 v1.5 and PSS select
    their mode, and a type that is none of the three known ones is accepted
    too, leaving the mode at the [0] of the cleared context. *)
Theorem init_rsa_padding (h : oracle) (a : algo_properties_st)
    (ctx : ncr_pk_ctx) (params : ncr_key_params_st) (key : key_item_st) :
  key_algorithm key = Ptr a ->
  algo a = NCR_ALG_RSA ->
  IS_ERR (h (AlgoToProperties (par_rsa_sign_hash params))) = false ->
  par_rsa_type params <> RSA_PKCS1_OAEP ->
  exists ctx',
    run h (ncr_pk_cipher_init (Ptr a) ctx params key) = Some (0, ctx') /\
    ctx_init ctx' = 1 /\
    ctx_type ctx' =
      (if par_rsa_type params =? RSA_PKCS1_V1_5 then LTC_LTC_PKCS_1_V1_5
       else if par_rsa_type params =? RSA_PKCS1_PSS then LTC_LTC_PKCS_1_PSS
       else 0) /\
    ctx_salt_len ctx' = par_rsa_pss_salt params /\
    ctx_sign_hash ctx' = h (AlgoToProperties (par_rsa_sign_hash params)) /\
    ctx_oaep_hash ctx' = NullPtr.
Proof.
  intros Ek Er Es No. apply Z.eqb_neq in No.
  unfold ncr_pk_cipher_init, ncr_key_params_get_sign_hash.
  rewrite Ek. simpl. rewrite !Z.eqb_refl. simpl.
  rewrite Er, !Z.eqb_refl. simpl. rewrite Es. simpl.
  rewrite No.
  destruct (par_rsa_type params =? RSA_PKCS1_V1_5); simpl;
    [|destruct (par_rsa_type params =? RSA_PKCS1_PSS)]; simpl;
    eexists; repeat split.
Qed.

(** X9.  RSA initialisation with the OAEP padding type looks the mask hash
    up in the registry: a null answer makes the call return [-EINVAL] with
    the [init] flag clear, any other answer is stored and the call returns
    [0]. *)
Theorem init_oaep_requires_hash (h : oracle) (a : algo_properties_st)
    (ctx : ncr_pk_ctx) (params : ncr_key_params_st) (key : key_item_st) :
  key_algorithm key = Ptr a ->
  algo a = NCR_ALG_RSA ->
  IS_ERR (h (AlgoToProperties (par_rsa_sign_hash params))) = false ->
  par_rsa_type params <> RSA_PKCS1_V1_5 ->
  par_rsa_type params = RSA_PKCS1_OAEP ->
  exists ret ctx',
    run h (ncr_pk_cipher_init (Ptr a) ctx params key) = Some (ret, ctx') /\
    ctx_type ctx' = LTC_LTC_PKCS_1_OAEP /\
    ctx_oaep_hash ctx' = h (AlgoToProperties (par_rsa_oaep_hash params)) /\
    (ctx_oaep_hash ctx' = NullPtr -> ret = - EINVAL /\ ctx_init ctx' = 0) /\
    (ctx_oaep_hash ctx' <> NullPtr -> ret = 0 /\ ctx_init ctx' = 1).
Proof.
  intros Ek Er Es Nv Eo. apply Z.eqb_neq in Nv.
  unfold ncr_pk_cipher_init, ncr_key_params_get_sign_hash.
  rewrite Ek. simpl. rewrite !Z.eqb_refl. simpl.
  rewrite Er, !Z.eqb_refl. simpl. rewrite Es. simpl.
  rewrite Nv, Eo, Z.eqb_refl. simpl.
  destruct (h (AlgoToProperties (par_rsa_oaep_hash params))) as [|e|p]; simpl;
    do 2 eexists; (split; [reflexivity|]); simpl; repeat split;
    congruence.
Qed.


(** X11.  A context on which [ncr_pk_cipher_init] failed for an algorithm
    mismatch has a null algorithm pointer, and each of the four operations
    dereferences it. *)
Theorem use_after_failed_init (h : oracle) (algorithm : algo_ptr)
    (ctx : ncr_pk_ctx) (params : ncr_key_params_st) (key : key_item_st)
    (input output hash : list byte) (isz osz hsz err : Z) :
  key_algorithm key <> algorithm ->
  exists ret ctx',
    run h (ncr_pk_cipher_init algorithm ctx params key) = Some (ret, ctx') /\
    ncr_pk_cipher_encrypt ctx' input isz output osz = Undefined /\
    ncr_pk_cipher_decrypt ctx' input isz output osz = Undefined /\
    ncr_pk_cipher_sign ctx' input isz output osz = Undefined /\
    ncr_pk_cipher_verify ctx' input isz hash hsz err = Undefined.
Proof.
  intros N. unfold ncr_pk_cipher_init.
  rewrite (algo_ptr_eqb_neq N). simpl.
  do 2 eexists. split; [reflexivity|]. repeat split.
Qed.

(** X22.  DSA initialisation reads the DSA signature hash and nothing else
    of the parameters: the one call it makes is that registry lookup, no
    padding mode, mask hash or salt length is stored, and it returns [0]
    unless the lookup yields an error pointer. *)
Theorem init_dsa_ignores_padding (h : oracle) (a : algo_properties_st)
    (ctx : ncr_pk_ctx) (params : ncr_key_params_st) (key : key_item_st) :
  NCR_ALG_RSA <> NCR_ALG_DSA ->
  key_algorithm key = Ptr a ->
  algo a = NCR_ALG_DSA ->
  IS_ERR (h (AlgoToProperties (par_dsa_sign_hash params))) = false ->
  run h (ncr_pk_cipher_init (Ptr a) ctx params key)
    = Some (0, {| ctx_algorithm := Ptr a;
                  ctx_sign_hash := h (AlgoToProperties (par_dsa_sign_hash params));
                  ctx_oaep_hash := NullPtr; ctx_salt_len := 0; ctx_type := 0;
                  ctx_key := Some key; ctx_init := 1 |}) /\
  calls h (ncr_pk_cipher_init (Ptr a) ctx params key)
    = [AlgoToProperties (par_dsa_sign_hash params)].
Proof.
  intros D Ek Ed Es.
  assert (R : (NCR_ALG_DSA =? NCR_ALG_RSA) = false)
    by (apply Z.eqb_neq; congruence).
  unfold ncr_pk_cipher_init, ncr_key_params_get_sign_hash.
  rewrite Ek. simpl. rewrite !Z.eqb_refl. simpl.
  rewrite Ed, R, !Z.eqb_refl. simpl. rewrite Es. simpl.
  split; reflexivity.
Qed.

(** X23.  An RSA signature hash the registry does not know is not an error
    at initialisation: the lookup yields a null pointer, which is no error
    pointer, so [ncr_pk_cipher_init] returns [0] with the [init] flag set;
    the failure appears only when the context is used to sign or verify,
    both returning [-EINVAL]. *)
Theorem unresolved_sign_hash_surfaces_later (h : oracle)
    (a : algo_properties_st) (ctx : ncr_pk_ctx) (params : ncr_key_params_st)
    (key : key_item_st) (input output hash : list byte) (isz osz hsz err : Z) :
  key_algorithm key = Ptr a ->
  algo a = NCR_ALG_RSA ->
  h (AlgoToProperties (par_rsa_sign_hash params)) = NullPtr ->
  par_rsa_type params <> RSA_PKCS1_OAEP ->
  exists ctx',
    run h (ncr_pk_cipher_init (Ptr a) ctx params key) = Some (0, ctx') /\
    ctx_init ctx' = 1 /\
    ncr_pk_cipher_sign ctx' input isz output osz = Ret (- EINVAL, output, osz) /\
    ncr_pk_cipher_verify ctx' input isz hash hsz err = Ret (- EINVAL, err).
Proof.
  intros Ek Er Es No. apply Z.eqb_neq in No.
  unfold ncr_pk_cipher_init, ncr_key_params_get_sign_hash.
  rewrite Ek. simpl. rewrite !Z.eqb_refl. simpl.
  rewrite Er, !Z.eqb_refl. simpl. rewrite Es. simpl.
  rewrite No.
  unfold ncr_pk_cipher_sign, ncr_pk_cipher_verify.
  destruct (par_rsa_type params =? RSA_PKCS1_V1_5); simpl;
    [|destruct (par_rsa_type params =? RSA_PKCS1_PSS)]; simpl;
    eexists; (split; [reflexivity|]); simpl;
    rewrite Er, Z.eqb_refl; repeat split.
Qed.

(** ** Serialisation *)

(** X12.  [ncr_pk_unpack] writes key material only: on every path that
    returns, the key item keeps its algorithm, its identifier buffer and its
    identifier length. *)
Theorem unpack_keeps_identity (h : oracle) (k : key_item_st)
    (packed : option (list byte)) (size ret : Z) (key' : option key_item_st) :
  run h (ncr_pk_unpack (Some k) packed size) = Some (ret, key') ->
  exists k',
    key' = Some k' /\
    key_algorithm k' = key_algorithm k /\
    key_id k' = key_id k /\
    key_id_size k' = key_id_size k.
Proof.
  unfold ncr_pk_unpack. simpl.
  destruct packed as [buf|]; simpl; [|intros [= <- <-]; eauto].
  destruct (key_algorithm k) as [|e|a] eqn:Ea; simpl; try discriminate.
  destruct (algo a =? NCR_ALG_RSA); [|destruct (algo a =? NCR_ALG_DSA)]; simpl.
  - destruct (h (RsaImport _)) as [cret imported].
    destruct (cret =? CRYPT_OK); intros [= <- <-]; eexists; simpl; eauto.
  - destruct (h (DsaImport _)) as [cret imported].
    destruct (cret =? CRYPT_OK); intros [= <- <-]; eexists; simpl; eauto.
  - intros [= <- <-]; eauto.
Qed.

(** X13.  [ncr_pk_unpack] returns [-EINVAL] without touching the key or the
    library when the key or the packed buffer is null and when the key's
    algorithm is neither RSA nor DSA; into a key item whose algorithm was
    never set it dereferences the null algorithm pointer. *)
Theorem unpack_rejects :
  (forall packed size, ncr_pk_unpack None packed size = Ret (- EINVAL, None)) /\
  (forall key size, ncr_pk_unpack key None size = Ret (- EINVAL, key)) /\
  (forall k buf size a,
      key_algorithm k = Ptr a ->
      algo a <> NCR_ALG_RSA -> algo a <> NCR_ALG_DSA ->
      ncr_pk_unpack (Some k) (Some buf) size = Ret (- EINVAL, Some k)) /\
  (forall k buf size,
      key_algorithm k = NullPtr ->
      ncr_pk_unpack (Some k) (Some buf) size = Undefined).
Proof.
  unfold ncr_pk_unpack. repeat split.
  - intros [k|] size; reflexivity.
  - intros k buf size a Ea Nr Nd. apply Z.eqb_neq in Nr, Nd.
    simpl. rewrite Ea. simpl. now rewrite Nr, Nd.
  - intros k buf size Ea. simpl. now rewrite Ea.
Qed.

(** X14.  [ncr_pk_pack] returns [-EINVAL] without calling the library and
    without writing [*packed_size] when the buffer is null and when the key's
    algorithm is neither RSA nor DSA. *)
Theorem pack_rejects :
  (forall key size,
      ncr_pk_pack key None (Some size) = Ret (- EINVAL, None, Some size)) /\
  (forall key buf size a,
      key_algorithm key = Ptr a ->
      algo a <> NCR_ALG_RSA -> algo a <> NCR_ALG_DSA ->
      ncr_pk_pack key (Some buf) (Some size)
        = Ret (- EINVAL, Some buf, Some size)).
Proof.
  unfold ncr_pk_pack, pack_export. split.
  - reflexivity.
  - intros key buf size a Ea Nr Nd. apply Z.eqb_neq in Nr, Nd.
    simpl. rewrite Ea. simpl. now rewrite Nr, Nd.
Qed.

(** X15.  A successful [ncr_pk_pack] reports a size within the capacity it
    was given: the 32-bit [*packed_size] holds the library's length without
    wrap-around.  The library is assumed to report its output sizes
    faithfully. *)
Theorem pack_size_within_capacity (h : oracle) (key : key_item_st)
    (buf : list byte) (cap : Z) (packed' : option (list byte)) (n : Z) :
  errno_positive ->
  export_sized h ->
  0 <= cap < 2 ^ 32 ->
  run h (ncr_pk_pack key (Some buf) (Some cap)) = Some (0, packed', Some n) ->
  0 <= n <= cap /\
  exists out, packed' = Some (store buf out) /\ n = Z.of_nat (length out).
Proof.
  intros P [Xr Xd] Hc.
  assert (Pe : - EINVAL <> 0) by (destruct P as (? & ? & ?); lia).
  assert (Pt : forall cret, tomerr cret <> 0)
    by (intros cret; pose proof (tomerr_negative cret P); lia).
  unfold ncr_pk_pack, pack_export. simpl.
  destruct (key_algorithm key) as [|e|a]; simpl; try discriminate.
  destruct (algo a =? NCR_ALG_RSA); [|destruct (algo a =? NCR_ALG_DSA)]; simpl.
  - pose proof (Xr cap (rsa_key_type (key_pk_rsa key)) (key_pk_rsa key)) as F.
    destruct (h (RsaExport _ _ _)) as [[cret out] m].
    destruct (cret =? CRYPT_OK) eqn:Ec; simpl;
      [|intros [= T]; now apply Pt in T].
    apply Z.eqb_eq in Ec. destruct (F Ec) as [Fn Fc].
    intros [= <- <-]. rewrite uint32_small by lia.
    split; [lia|eauto].
  - pose proof (Xd cap (dsa_key_type (key_pk_dsa key)) (key_pk_dsa key)) as F.
    destruct (h (DsaExport _ _ _)) as [[cret out] m].
    destruct (cret =? CRYPT_OK) eqn:Ec; simpl;
      [|intros [= T]; now apply Pt in T].
    apply Z.eqb_eq in Ec. destruct (F Ec) as [Fn Fc].
    intros [= <- <-]. rewrite uint32_small by lia.
    split; [lia|eauto].
  - intros [= T]. contradiction.
Qed.

(** ** Generation *)

Lemma make_key_id_frame (h : oracle) (tmp : list byte) (max_size : Z)
    (private public : key_item_st) (ret : Z) (pr pu : key_item_st) :
  run h (make_key_id tmp max_size private public) = Some (ret, pr, pu) ->
  key_algorithm pr = key_algorithm private /\
  key_pk_rsa pr = key_pk_rsa private /\
  key_pk_dsa pr = key_pk_dsa private /\
  key_algorithm pu = key_algorithm public.
Proof.
  unfold make_key_id, leave. simpl.
  destruct (h (HashMemory _ _ _)) as [[cret out] n].
  destruct (cret =? CRYPT_OK); simpl; intros [= <- <- <-]; simpl; auto.
Qed.

Lemma make_public_and_id_frame (h : oracle) (private public : key_item_st)
    (ret : Z) (pr pu : key_item_st) :
  run h (ncr_pk_make_public_and_id private public) = Some (ret, pr, pu) ->
  key_algorithm pr = key_algorithm private /\
  key_pk_rsa pr = key_pk_rsa private /\
  key_pk_dsa pr = key_pk_dsa private /\
  key_algorithm pu = key_algorithm public.
Proof.
  unfold ncr_pk_make_public_and_id. cbn [bind invoke run].
  destruct (h (Kmalloc KEY_DATA_MAX_SIZE)) as [tmp|];
    [|simpl; intros [= <- <- <-]; auto].
  destruct (key_algorithm private) as [|e|a] eqn:Ea; cbn [algo_of bind run];
    try discriminate.
  destruct (algo a =? NCR_ALG_RSA); [|destruct (algo a =? NCR_ALG_DSA)];
    cbn [bind invoke run].
  - destruct (h (RsaExport _ _ _)) as [[cret out] n].
    destruct (cret =? CRYPT_OK); cbn [bind invoke run];
      [|unfold leave; simpl; intros [= <- <- <-]; auto].
    destruct (h (RsaImport _)) as [cret' imported].
    destruct (cret' =? CRYPT_OK);
      [|unfold leave; simpl; intros [= <- <- <-]; auto].
    intros R. apply make_key_id_frame in R. simpl in R.
    rewrite Ea in R. exact R.
  - destruct (h (DsaExport _ _ _)) as [[cret out] n].
    destruct (cret =? CRYPT_OK); cbn [bind invoke run];
      [|unfold leave; simpl; intros [= <- <- <-]; auto].
    destruct (h (DsaImport _)) as [cret' imported].
    destruct (cret' =? CRYPT_OK);
      [|unfold leave; simpl; intros [= <- <- <-]; auto].
    intros R. apply make_key_id_frame in R. simpl in R.
    rewrite Ea in R. exact R.
  - unfold leave; simpl; intros [= <- <- <-]; auto.
Qed.

(** X16.  Deriving the public key and the identifier leaves the private key
    as it was for serialisation: on every path that returns, packing the
    private item afterwards is the same program as packing it before. *)
Theorem identification_keeps_private_export (h : oracle)
    (private public : key_item_st) (ret : Z) (pr pu : key_item_st) :
  run h (ncr_pk_make_public_and_id private public) = Some (ret, pr, pu) ->
  forall packed packed_size,
    ncr_pk_pack pr packed packed_size = ncr_pk_pack private packed packed_size.
Proof.
  intros R packed packed_size.
  destruct (make_public_and_id_frame _ _ _ R) as (Ea & Er & Ed & _).
  unfold ncr_pk_pack, pack_export. now rewrite Ea, Er, Ed.
Qed.

(** X17.  [ncr_pk_generate] stores the requested algorithm into both key
    items before anything else, and nothing changes it afterwards: on every
    path that returns, failed or not, both items carry that algorithm. *)
Theorem generate_sets_algorithm (h : oracle) (algorithm : algo_ptr)
    (params params' : ncr_key_generate_params_st)
    (private public private' public' : key_item_st) (ret : Z) :
  run h (ncr_pk_generate algorithm params private public)
    = Some (ret, params', private', public') ->
  key_algorithm private' = algorithm /\ key_algorithm public' = algorithm.
Proof.
  unfold ncr_pk_generate. cbn [bind invoke run].
  destruct (h QueueWork <? 0); [simpl; intros [= <- <- <- <-]; auto|].
  rewrite run_bind.
  match goal with
  | |- context [keygen_handler ?s] =>
      destruct (run h (keygen_handler s)) as [st|] eqn:K; [|discriminate]
  end.
  destruct (keygen_handler_frame _ _ K) as [Kp Ka]. simpl in Kp, Ka.
  unfold generate_finish.
  destruct (st_ret st <? 0).
  { simpl. intros [= <- <- <- <-]. rewrite Kp. auto. }
  rewrite run_bind.
  destruct (run h (ncr_pk_make_public_and_id (st_private st) (st_public st)))
    as [[[r pr] pu]|] eqn:M; [|discriminate].
  destruct (make_public_and_id_frame _ _ _ M) as (Ea & _ & _ & Eu).
  rewrite Kp in Eu. simpl in Eu. rewrite Ka in Ea.
  destruct (r <? 0); simpl; intros [= <- <- <- <-]; auto.
Qed.

Lemma keygen_handler_keeps_params (h : oracle) (st st' : keygen_st)
    (a : algo_properties_st) :
  st_algo st = Ptr a ->
  algo a = NCR_ALG_RSA \/ algo a <> NCR_ALG_DSA ->
  run h (keygen_handler st) = Some st' ->
  st_params st' = st_params st.
Proof.
  intros Ea D. unfold keygen_handler. rewrite Ea. cbn [algo_of bind].
  destruct (algo a =? NCR_ALG_RSA) eqn:Er.
  - cbn [bind invoke run].
    destruct (h (RsaMakeKey _ _)) as [cret made].
    destruct (cret =? CRYPT_OK); simpl; intros [= <-]; reflexivity.
  - destruct D as [D|D]; [apply Z.eqb_neq in Er; contradiction|].
    apply Z.eqb_neq in D. rewrite D. simpl. intros [= <-]. reflexivity.
Qed.

(** X18.  The request is written only on the DSA path: when the algorithm is
    RSA, or is not DSA, [ncr_pk_generate] hands the request back exactly as
    it was supplied, on every path that returns. *)
Theorem generate_request_untouched (h : oracle) (algorithm : algo_ptr)
    (a : algo_properties_st) (params params' : ncr_key_generate_params_st)
    (private public private' public' : key_item_st) (ret : Z) :
  algorithm = Ptr a ->
  algo a = NCR_ALG_RSA \/ algo a <> NCR_ALG_DSA ->
  run h (ncr_pk_generate algorithm params private public)
    = Some (ret, params', private', public') ->
  params' = params.
Proof.
  intros Ea D. unfold ncr_pk_generate. cbn [bind invoke run].
  destruct (h QueueWork <? 0); [simpl; intros [= <- <- <- <-]; auto|].
  rewrite run_bind.
  match goal with
  | |- context [keygen_handler ?s] =>
      destruct (run h (keygen_handler s)) as [st|] eqn:K; [|discriminate]
  end.
  apply (fun E => @keygen_handler_keeps_params h _ st a E D) in K;
    [|exact Ea]. simpl in K.
  unfold generate_finish.
  destruct (st_ret st <? 0); [simpl; intros [= <- <- <- <-]; auto|].
  rewrite run_bind.
  destruct (run h (ncr_pk_make_public_and_id (st_private st) (st_public st)))
    as [[[r pr] pu]|]; [|discriminate].
  destruct (r <? 0); simpl; intros [= <- <- <- <-]; auto.
Qed.

(** X19.  The temporary export buffer is released on every path of
    [ncr_pk_make_public_and_id] that returns: when the allocation fails the
    allocation is the only call made, and otherwise the run allocates once
    and its last call is the one [kfree]. *)
Theorem temporary_buffer_released (h : oracle) (private public : key_item_st)
    (r : Z * key_item_st * key_item_st) :
  run h (ncr_pk_make_public_and_id private public) = Some r ->
  let made := calls h (ncr_pk_make_public_and_id private public) in
  match h (Kmalloc KEY_DATA_MAX_SIZE) with
  | None => made = [Kmalloc KEY_DATA_MAX_SIZE] /\ fst (fst r) = - ENOMEM
  | Some _ =>
      filter is_kmalloc made = [Kmalloc KEY_DATA_MAX_SIZE] /\
      filter is_kfree made = [Kfree] /\
      last made QueueWork = Kfree
  end.
Proof.
  unfold ncr_pk_make_public_and_id, make_key_id, leave.
  branch h; try discriminate; intros [= <-]; simpl; repeat split.
Qed.

(** X20.  When the work item reports a negative result -- the key
    construction failed, or the algorithm is neither RSA nor DSA --
    [ncr_pk_generate] returns that result at once: beyond queueing and the
    work item's own calls it makes none, so no public key is derived and no
    identifier computed. *)
Theorem generate_stops_on_worker_failure (h : oracle) (algorithm : algo_ptr)
    (params : ncr_key_generate_params_st) (private public : key_item_st)
    (st : keygen_st) :
  let work := keygen_handler
                {| st_ret := 0; st_algo := algorithm;
                   st_private := set_key_algorithm private algorithm;
                   st_public := set_key_algorithm public algorithm;
                   st_params := params |} in
  0 <= h QueueWork ->
  run h work = Some st ->
  st_ret st < 0 ->
  run h (ncr_pk_generate algorithm params private public)
    = Some (st_ret st, st_params st, st_private st, st_public st) /\
  calls h (ncr_pk_generate algorithm params private public)
    = QueueWork :: calls h work.
Proof.
  intros work Q K N. unfold ncr_pk_generate. cbn [bind invoke run calls].
  replace (h QueueWork <? 0) with false by (symmetry; apply Z.ltb_ge; lia).
  rewrite run_bind, calls_bind. fold work. rewrite K.
  unfold generate_finish.
  replace (st_ret st <? 0) with true by (symmetry; apply Z.ltb_lt; lia).
  simpl. now rewrite app_nil_r.
Qed.

(** ** Release *)

(** X21.  [ncr_pk_clear] releases exactly what a successful
    [ncr_pk_unpack] put into the key item: one call of the family's release
    routine, on the structure the import produced. *)
Theorem clear_releases_imported (h : oracle) (k k' : key_item_st)
    (a : algo_properties_st) (buf : list byte) (size : Z) :
  errno_positive ->
  key_algorithm k = Ptr a ->
  run h (ncr_pk_unpack (Some k) (Some buf) size) = Some (0, Some k') ->
  ncr_pk_clear k' =
  Some [if algo a =? NCR_ALG_RSA
        then RsaFree (snd (h (RsaImport (region buf size))))
        else DsaFree (snd (h (DsaImport (region buf size))))].
Proof.
  intros P Ea.
  assert (Pe : - EINVAL <> 0) by (destruct P as (? & ? & ?); lia).
  unfold ncr_pk_unpack, ncr_pk_clear. simpl. rewrite Ea. simpl.
  destruct (algo a =? NCR_ALG_RSA) eqn:Er;
    [|destruct (algo a =? NCR_ALG_DSA) eqn:Ed]; simpl.
  - destruct (h (RsaImport _)) as [cret imported].
    destruct (cret =? CRYPT_OK).
    + intros [= <-]. simpl. now rewrite Ea, Er.
    + intros [= T _]. pose proof (tomerr_negative cret P). lia.
  - destruct (h (DsaImport _)) as [cret imported].
    destruct (cret =? CRYPT_OK).
    + intros [= <-]. simpl. now rewrite Ea, Er, Ed.
    + intros [= T _]. pose proof (tomerr_negative cret P). lia.
  - intros [= T]. contradiction.
Qed.

End Further.

(** * The further properties on the sample platform *)

Lemma cipher_unsupported_algorithm_witness :
  @ncr_pk_cipher_sign sample_headers (sample_ctx sample_sha1) [x01] 1 [x00] 1
    = Ret (-22, [x00], 1).
Proof.
  refine (proj1 (proj2 (proj2
    (@cipher_unsupported_algorithm sample_headers (sample_ctx sample_sha1)
       {| algo := 40 |} [x01] [x00] [x02] 1 1 1 0 _ _ _)))).
  - reflexivity.
  - simpl. discriminate.
  - simpl. discriminate.
Defined.

Lemma rsa_without_sign_hash_witness :
  @ncr_pk_cipher_verify sample_headers
    (set_ctx_sign_hash (sample_ctx sample_rsa) NullPtr) [x01] 1 [x02] 1 7
    = Ret (-22, 7).
Proof.
  refine (proj2
    (@rsa_without_sign_hash sample_headers
       (set_ctx_sign_hash (sample_ctx sample_rsa) NullPtr)
       {| algo := 101 |} [x01] [x00] [x02] 1 1 1 7 _ _ _));
    reflexivity.
Defined.

Lemma dsa_uses_key_alone_witness :
  @ncr_pk_cipher_sign sample_headers
    (set_ctx_type (sample_ctx sample_dsa) 3) [x01] 1 [x00] 8
  = @ncr_pk_cipher_sign sample_headers (sample_ctx sample_dsa) [x01] 1 [x00] 8.
Proof.
  refine (proj1
    (@dsa_uses_key_alone sample_headers (sample_ctx sample_dsa)
       (set_ctx_type (sample_ctx sample_dsa) 3)
       {| algo := 102 |} {| algo := 102 |} [x01] [x00] [x02] 1 8 1 0
       _ _ _ _ _ _));
    try reflexivity.
  simpl. discriminate.
Defined.

Lemma sign_outcome_witness :
  @run sample_headers _ sample_oracle
    (@ncr_pk_cipher_sign sample_headers (sample_ctx sample_rsa)
       [x01] 1 [x00; x00; x00; x00] 3)
    = Some (0, [x2a; x17; x01; x00], 3).
Proof.
  refine (@sign_outcome sample_headers sample_oracle (sample_ctx sample_rsa)
            [x01] [x00; x00; x00; x00] 1 3
            (@RsaSignHashEx sample_headers [x01] 3 1 (Ptr {| algo := 40 |}) 0
               (0, [x2a; x17]))
            0 [x2a; x17; x01] 3 _ _).
  - simpl. left. reflexivity.
  - reflexivity.
Defined.

Lemma init_flag_means_bound_witness :
  @ctx_key sample_headers (sample_ctx sample_rsa) = Some sample_public.
Proof.
  destruct (@init_flag_means_bound sample_headers sample_oracle sample_rsa
              (@ctx_zero sample_headers) sample_params sample_public
              0 (sample_ctx sample_rsa) eq_refl)
    as [(_ & _ & _ & K & _)|(Z0 & _)].
  - exact K.
  - discriminate Z0.
Defined.

Lemma init_rsa_padding_witness :
  exists ctx',
    @run sample_headers _ sample_oracle
      (@ncr_pk_cipher_init sample_headers sample_rsa (@ctx_zero sample_headers)
         sample_odd_params sample_public) = Some (0, ctx') /\
    @ctx_type sample_headers ctx' = 0.
Proof.
  destruct (@init_rsa_padding sample_headers sample_oracle {| algo := 101 |}
              (@ctx_zero sample_headers) sample_odd_params sample_public)
    as (ctx' & R & _ & T & _).
  - reflexivity.
  - reflexivity.
  - reflexivity.
  - simpl. discriminate.
  - exists ctx'. split; [exact R | exact T].
Defined.

Lemma init_oaep_requires_hash_witness :
  exists ret ctx',
    @run sample_headers _ sample_oracle
      (@ncr_pk_cipher_init sample_headers sample_rsa (@ctx_zero sample_headers)
         sample_oaep_params sample_public) = Some (ret, ctx') /\
    ret = -22 /\ @ctx_init sample_headers ctx' = 0.
Proof.
  destruct (@init_oaep_requires_hash sample_headers sample_oracle
              {| algo := 101 |} (@ctx_zero sample_headers) sample_oaep_params
              sample_public)
    as (ret & ctx' & R & _ & O & N & _).
  - reflexivity.
  - reflexivity.
  - reflexivity.
  - simpl. discriminate.
  - reflexivity.
  - exists ret, ctx'. split; [exact R|]. apply N. rewrite O. reflexivity.
Defined.


Lemma use_after_failed_init_witness :
  exists ret ctx',
    @run sample_headers _ sample_oracle
      (@ncr_pk_cipher_init sample_headers sample_dsa (sample_ctx sample_rsa)
         sample_params sample_public) = Some (ret, ctx') /\
    @ncr_pk_cipher_verify sample_headers ctx' [x01] 1 [x02] 1 0 = Undefined.
Proof.
  destruct (@use_after_failed_init sample_headers sample_oracle sample_dsa
              (sample_ctx sample_rsa) sample_params sample_public
              [x01] [x00] [x02] 1 1 1 0)
    as (ret & ctx' & R & _ & _ & _ & V).
  - simpl. discriminate.
  - exists ret, ctx'. split; [exact R | exact V].
Defined.

Lemma init_dsa_ignores_padding_witness :
  @calls sample_headers _ sample_oracle
    (@ncr_pk_cipher_init sample_headers sample_dsa (@ctx_zero sample_headers)
       sample_oaep_params (set_key_algorithm sample_empty_key sample_dsa))
    = [AlgoToProperties 40].
Proof.
  refine (proj2
    (@init_dsa_ignores_padding sample_headers sample_oracle {| algo := 102 |}
       (@ctx_zero sample_headers) sample_oaep_params
       (set_key_algorithm sample_empty_key sample_dsa) _ _ _ _));
    try reflexivity.
  simpl. discriminate.
Defined.

Lemma unresolved_sign_hash_surfaces_later_witness :
  exists ctx',
    @run sample_headers _ sample_oracle
      (@ncr_pk_cipher_init sample_headers sample_rsa (@ctx_zero sample_headers)
         {| par_rsa_type := 0; par_rsa_oaep_hash := 0; par_rsa_sign_hash := 7;
            par_rsa_pss_salt := 0; par_dsa_sign_hash := 40 |}
         sample_public) = Some (0, ctx') /\
    @ncr_pk_cipher_sign sample_headers ctx' [x01] 1 [x00] 8
      = Ret (-22, [x00], 8).
Proof.
  destruct (@unresolved_sign_hash_surfaces_later sample_headers sample_oracle
              {| algo := 101 |} (@ctx_zero sample_headers)
              {| par_rsa_type := 0; par_rsa_oaep_hash := 0;
                 par_rsa_sign_hash := 7; par_rsa_pss_salt := 0;
                 par_dsa_sign_hash := 40 |}
              sample_public [x01] [x00] [x02] 1 8 1 0)
    as (ctx' & R & _ & S & _).
  - reflexivity.
  - reflexivity.
  - reflexivity.
  - simpl. discriminate.
  - exists ctx'. split; [exact R | exact S].
Defined.

Lemma unpack_keeps_identity_witness :
  exists k',
    Some (set_key_pk_rsa sample_public ((1, [x2a; x17]) : sample_key)) = Some k' /\
    @key_id_size sample_headers k' = 2.
Proof.
  destruct (@unpack_keeps_identity sample_headers sample_oracle sample_public
              (Some [x01; x2a; x17]) 3 0
              (Some (set_key_pk_rsa sample_public ((1, [x2a; x17]) : sample_key)))
              eq_refl)
    as (k' & E & _ & _ & Sz).
  exists k'. split; [exact E | exact Sz].
Defined.

Lemma pack_size_within_capacity_witness : 0 <= 3 <= 8.
Proof.
  refine (proj1
    (@pack_size_within_capacity sample_headers sample_oracle sample_private
       (repeat x00 8) 8
       (Some [x01; x2a; x17; x00; x00; x00; x00; x00]) 3
       sample_errno_positive sample_export_sized _ _)).
  - lia.
  - reflexivity.
Defined.

Lemma identification_keeps_private_export_witness :
  @ncr_pk_pack sample_headers sample_private (Some [x00]) (Some 1)
  = @ncr_pk_pack sample_headers
      (set_key_id_size (set_key_id sample_private (repeat x00 20)) 0)
      (Some [x00]) (Some 1).
Proof.
  refine (@identification_keeps_private_export sample_headers sample_oracle
            (set_key_id_size (set_key_id sample_private (repeat x00 20)) 0)
            (set_key_algorithm sample_empty_key sample_rsa)
            0 sample_private sample_public _ (Some [x00]) (Some 1)).
  reflexivity.
Defined.

Lemma generate_sets_algorithm_witness :
  @key_algorithm sample_headers sample_private = sample_rsa /\
  @key_algorithm sample_headers sample_public = sample_rsa.
Proof.
  refine (@generate_sets_algorithm sample_headers sample_oracle sample_rsa
            sample_request sample_request sample_empty_key sample_empty_key
            sample_private sample_public 0 _).
  reflexivity.
Defined.

Lemma generate_request_untouched_witness : sample_request = sample_request.
Proof.
  refine (@generate_request_untouched sample_headers sample_oracle sample_rsa
            {| algo := 101 |} sample_request sample_request
            sample_empty_key sample_empty_key sample_private sample_public 0
            _ _ _).
  - reflexivity.
  - left. reflexivity.
  - reflexivity.
Defined.

Lemma temporary_buffer_released_witness :
  filter (@is_kfree sample_headers)
    (@calls sample_headers _ sample_oracle
       (@ncr_pk_make_public_and_id sample_headers sample_private
          (set_key_algorithm sample_empty_key sample_rsa)))
    = [Kfree].
Proof.
  refine (proj1 (proj2
    (@temporary_buffer_released sample_headers sample_oracle sample_private
       (set_key_algorithm sample_empty_key sample_rsa)
       (0, sample_private, sample_public) _))).
  reflexivity.
Defined.

Lemma generate_stops_on_worker_failure_witness :
  @calls sample_headers _ sample_oracle
    (@ncr_pk_generate sample_headers sample_sha1 sample_request
       sample_empty_key sample_empty_key)
    = [QueueWork].
Proof.
  refine (proj2
    (@generate_stops_on_worker_failure sample_headers sample_oracle sample_sha1
       sample_request sample_empty_key sample_empty_key
       (@Build_keygen_st sample_headers (-22) sample_sha1
          (set_key_algorithm sample_empty_key sample_sha1)
          (set_key_algorithm sample_empty_key sample_sha1) sample_request)
       _ _ _)).
  - simpl. lia.
  - reflexivity.
  - simpl. lia.
Defined.

Lemma clear_releases_imported_witness :
  @ncr_pk_clear sample_headers
    (set_key_pk_rsa (set_key_algorithm sample_empty_key sample_rsa)
       ((1, [x2a; x17]) : sample_key))
    = Some [@RsaFree sample_headers (1, [x2a; x17])].
Proof.
  refine (@clear_releases_imported sample_headers sample_oracle
            (set_key_algorithm sample_empty_key sample_rsa)
            (set_key_pk_rsa (set_key_algorithm sample_empty_key sample_rsa)
               ((1, [x2a; x17]) : sample_key))
            {| algo := 101 |} [x01; x2a; x17; x00] 3
            sample_errno_positive _ _).
  - reflexivity.
  - reflexivity.
Defined.
